(** * flask-directory-listing: path confinement, listing order, archives, uploads

    A shallow embedding of the three server variants of the repository,

      - [App]          src/app.py                                   (os.path, listing only)
      - [OsPathMain]   src/src/flask-directory-listing/__main__.py  (os.path, zip and upload)
      - [PathlibMain]  src/src/flask_directory_listing/__main__.py  (pathlib, zip and upload)

    together with the few functions of the Python standard library they call
    ([PyStr], [PosixPath], [UrlParse], [PyFloat], [PySort]).

    Conventions.  A Python [str] is a Rocq [string] holding its UTF-8 bytes;
    bytewise lexicographic order on UTF-8 is code-point order, which is the
    order Python compares strings by.  The platform is POSIX (separator "/").
    The filesystem is passed to the handlers explicitly; a handler returns its
    response and, where it writes, the list of filesystem operations it
    performed, in order. *)

From stdpp Require Import base gmap strings list sorting.
From Stdlib Require Import Ascii ZArith Lia DecimalString.

Local Open Scope Z_scope.

(* ===================================================================== *)
(** * Python string methods *)
(* ===================================================================== *)

Module PyStr.

Definition ascii_eqb (a b : ascii) : bool := bool_decide (a = b).

(** [s.startswith(p)] *)
Fixpoint startswith (p s : string) : bool :=
  match p, s with
  | EmptyString, _ => true
  | String a p', String b s' => ascii_eqb a b && startswith p' s'
  | String _ _, EmptyString => false
  end.

(** [s.endswith(p)] *)
Definition endswith (p s : string) : bool :=
  startswith (String.rev p) (String.rev s).

(** [c in s] for a one-character [c] *)
Fixpoint contains (c : ascii) (s : string) : bool :=
  match s with
  | EmptyString => false
  | String a s' => ascii_eqb a c || contains c s'
  end.

(** [s.split(c)]: never empty, [""] splits into [[""]] *)
Fixpoint split (c : ascii) (s : string) : list string :=
  match s with
  | EmptyString => [EmptyString]
  | String a s' =>
      if ascii_eqb a c then EmptyString :: split c s'
      else match split c s' with
           | h :: t => String a h :: t
           | [] => [String a EmptyString]
           end
  end.

(** [sep.join(l)] *)
Fixpoint join (sep : string) (l : list string) : string :=
  match l with
  | [] => EmptyString
  | [x] => x
  | x :: l' => x +:+ sep +:+ join sep l'
  end.

(** [s.partition(c)] as [(head, has_sep, tail)]; [s.split(c, 1)] is
    [[head; tail]] when [has_sep] and [[head]] otherwise. *)
Fixpoint partition (c : ascii) (s : string) : string * bool * string :=
  match s with
  | EmptyString => (EmptyString, false, EmptyString)
  | String a s' =>
      if ascii_eqb a c then (EmptyString, true, s')
      else let '(h, b, t) := partition c s' in (String a h, b, t)
  end.

(** [s.replace(a, b)] for one-character [a] and [b] *)
Fixpoint replace (a b : ascii) (s : string) : string :=
  match s with
  | EmptyString => EmptyString
  | String x s' => String (if ascii_eqb x a then b else x) (replace a b s')
  end.

(** [s.lstrip(c)] *)
Fixpoint lstrip (c : ascii) (s : string) : string :=
  match s with
  | String a s' => if ascii_eqb a c then lstrip c s' else s
  | EmptyString => EmptyString
  end.

(** [s.rstrip(c)] *)
Definition rstrip (c : ascii) (s : string) : string :=
  String.rev (lstrip c (String.rev s)).

(** [c * n] *)
Fixpoint repeat_char (c : ascii) (n : nat) : string :=
  match n with
  | O => EmptyString
  | S n' => String c (repeat_char c n')
  end.

(** [s.rjust(w)], the padding of the format specs [{:3d}] and [{:3.0f}] *)
Definition rjust (w : nat) (s : string) : string :=
  repeat_char " " (w - String.length s) +:+ s.

(** [s.lower()] on the ASCII letters.  Python lowers by Unicode tables; no
    character outside ASCII lowers to a string of ASCII letters that occurs
    in the words this program compares the result with. *)
Definition lower_ascii (a : ascii) : ascii :=
  let n := nat_of_ascii a in
  if ((65 <=? n) && (n <=? 90))%nat then ascii_of_nat (n + 32) else a.

Fixpoint lower (s : string) : string :=
  match s with
  | EmptyString => EmptyString
  | String a s' => String (lower_ascii a) (lower s')
  end.

(** [str(n)] and [f"{n:d}"] for an integer *)
Definition str_of_Z (n : Z) : string :=
  NilZero.string_of_int (Z.to_int n).

(** The character of code 92, the separator of Windows paths. *)
Definition backslash : ascii := ascii_of_nat 92.

(** Truthiness of a string: [if s:] *)
Definition nonempty (s : string) : bool :=
  match s with EmptyString => false | _ => true end.

(** [needle in s] for a string [needle] *)
Fixpoint contains_str (needle s : string) : bool :=
  startswith needle s
  || match s with
     | EmptyString => false
     | String _ s' => contains_str needle s'
     end.

End PyStr.

(* ===================================================================== *)
(** * posixpath: join, normpath, dirname, basename *)
(* ===================================================================== *)

Module PosixPath.
Import PyStr.

Definition sep : ascii := "/"%char.

(** [os.path.join(a, b)]: an absolute [b] discards [a]. *)
Definition join (a b : string) : string :=
  if startswith "/" b then b
  else if negb (nonempty a) || endswith "/" a then a +:+ b
  else a +:+ "/" +:+ b.

(** One iteration of the component loop of [normpath].  [initial] tells
    whether the path began with a slash. *)
Definition norm_step (initial : bool) (new_comps : list string) (comp : string)
  : list string :=
  if bool_decide (comp = "") || bool_decide (comp = ".") then new_comps
  else if negb (bool_decide (comp = ".."))
          || (negb initial && bool_decide (new_comps = []))
          || bool_decide (last new_comps = Some "..")
       then new_comps ++ [comp]
       else removelast new_comps.

(** [os.path.normpath(path)] *)
Definition normpath (path : string) : string :=
  if negb (nonempty path) then "."
  else
    let initial_slashes : nat :=
      if startswith "/" path then
        if startswith "//" path && negb (startswith "///" path) then 2%nat else 1%nat
      else 0%nat in
    let comps :=
      foldl (norm_step (negb (bool_decide (initial_slashes = 0%nat))))
            [] (split sep path) in
    let path' := repeat_char sep initial_slashes +:+ PyStr.join "/" comps in
    if nonempty path' then path' else ".".

(** [p.rfind("/") + 1] splits [p] into [p[:i]] and [p[i:]]. *)
Fixpoint rsplit_sep (p : string) : string * string :=
  match p with
  | EmptyString => (EmptyString, EmptyString)
  | String a p' =>
      let '(h, t) := rsplit_sep p' in
      if contains sep p' then (String a h, t)
      else if ascii_eqb a sep then (String a EmptyString, p')
      else (EmptyString, String a p')
  end.

(** [os.path.dirname(p)] *)
Definition dirname (p : string) : string :=
  let head := (rsplit_sep p).1 in
  if nonempty head && negb (bool_decide (lstrip sep head = "")) then rstrip sep head
  else head.

(** [os.path.basename(p)] *)
Definition basename (p : string) : string := (rsplit_sep p).2.

End PosixPath.

(* ===================================================================== *)
(** * urllib.parse: unquote and parse_qs *)
(* ===================================================================== *)

Module UrlParse.
Import PyStr.

Definition hexval (a : ascii) : option nat :=
  let n := nat_of_ascii a in
  if ((48 <=? n) && (n <=? 57))%nat then Some (n - 48)%nat
  else if ((65 <=? n) && (n <=? 70))%nat then Some (n - 55)%nat
  else if ((97 <=? n) && (n <=? 102))%nat then Some (n - 87)%nat
  else None.

(** [unquote(s)]: every ["%XY"] with two hexadecimal digits becomes the byte
    they denote; any other ["%"] stays.  Python then decodes the bytes as
    UTF-8 with [errors="replace"]; a string here holds its UTF-8 bytes, so
    the two agree whenever the decoded bytes are valid UTF-8. *)
Fixpoint unquote (s : string) : string :=
  match s with
  | EmptyString => EmptyString
  | String c r =>
      if ascii_eqb c "%" then
        match r with
        | String h1 (String h2 r') =>
            match hexval h1, hexval h2 with
            | Some a, Some b => String (ascii_of_nat (16 * a + b)) (unquote r')
            | _, _ => String c (unquote r)
            end
        | _ => String c (unquote r)
        end
      else String c (unquote r)
  end.

(** [parse_qsl(qs)] with its defaults ([keep_blank_values=False],
    [strict_parsing=False], separator ["&"]) *)
Definition parse_qsl_field (name_value : string) : list (string * string) :=
  if nonempty name_value then
    let '(name, _, value) := partition "=" name_value in
    if nonempty value then
      [(unquote (replace "+" " " name), unquote (replace "+" " " value))]
    else []
  else [].

Definition parse_qsl (qs : string) : list (string * string) :=
  if nonempty qs then flat_map parse_qsl_field (split "&" qs) else [].

(** [parse_qs(qs)]: the values of each name, in order of appearance *)
Definition parse_qs_add (parsed : gmap string (list string)) (nv : string * string)
  : gmap string (list string) :=
  match parsed !! nv.1 with
  | Some vs => <[nv.1 := vs ++ [nv.2]]> parsed
  | None => <[nv.1 := [nv.2]]> parsed
  end.

Definition parse_qs (qs : string) : gmap string (list string) :=
  foldl parse_qs_add ∅ (parse_qsl qs).

End UrlParse.

(* ===================================================================== *)
(** * Python floats, as far as the size formatter uses them *)
(* ===================================================================== *)

(** The formatter converts a non-negative integer to a double, divides it by
    powers of two and prints it with [.1f] or [3.0f].  A double is kept as the
    exact dyadic rational it denotes: [dnum / 2 ^ dexp].  The conversion
    rounds to 53 significant bits, to nearest, ties to even; a division by a
    power of two is exact (no underflow at these magnitudes); printing is the
    correctly rounded decimal, ties to even. *)
Module PyFloat.
Import PyStr.

Record dyadic := Dy { dnum : Z; dexp : Z }.

(** [n / d] rounded to the nearest integer, ties to even ([0 < d]) *)
Definition round_half_even (n d : Z) : Z :=
  let q := n / d in
  let r := n mod d in
  if 2 * r <? d then q
  else if d <? 2 * r then q + 1
  else if Z.even q then q else q + 1.

(** [float(n)] for [0 <= n] *)
Definition of_int (n : Z) : dyadic :=
  let bits := Z.log2 n + 1 in
  if bits <=? 53 then Dy n 0
  else let sh := bits - 53 in Dy (round_half_even n (2 ^ sh) * 2 ^ sh) 0.

(** [x / 2.0 ** k] *)
Definition div_pow2 (x : dyadic) (k : Z) : dyadic :=
  Dy (dnum x) (dexp x + k).

(** [x < c] for an integer-valued [c] *)
Definition lt_int (x : dyadic) (c : Z) : bool :=
  dnum x <? c * 2 ^ dexp x.

(** [f"{x:.1f}"] for [0 <= x] *)
Definition format_1f (x : dyadic) : string :=
  let t := round_half_even (10 * dnum x) (2 ^ dexp x) in
  str_of_Z (t / 10) +:+ "." +:+ str_of_Z (t mod 10).

(** [f"{x:3.0f}"] for [0 <= x] *)
Definition format_3_0f (x : dyadic) : string :=
  rjust 3 (str_of_Z (round_half_even (dnum x) (2 ^ dexp x))).

(** [f"{n:3d}"] for an integer [n] *)
Definition format_3d (n : Z) : string := rjust 3 (str_of_Z n).

End PyFloat.

(* ===================================================================== *)
(** * list.sort(key=...) and list.reverse() *)
(* ===================================================================== *)

(** Python compares sort keys with [<] only, and tuples lexicographically
    (the first position where the components are not [==] decides). *)
Class PyOrd (K : Type) := {
  py_lt : K -> K -> bool;
  py_eq : K -> K -> bool
}.

#[export] Instance str_PyOrd : PyOrd string :=
  {| py_lt := String.ltb; py_eq := String.eqb |}.

(** [int], and a finite [float] taken at its rank among the finite doubles. *)
#[export] Instance num_PyOrd : PyOrd Z :=
  {| py_lt := Z.ltb; py_eq := Z.eqb |}.

#[export] Instance bool_PyOrd : PyOrd bool :=
  {| py_lt := fun a b => negb a && b; py_eq := Bool.eqb |}.

#[export] Instance tuple_PyOrd {A B} `{PyOrd A} `{PyOrd B} : PyOrd (A * B) :=
  {| py_lt := fun x y => if py_eq x.1 y.1 then py_lt x.2 y.2 else py_lt x.1 y.1;
     py_eq := fun x y => py_eq x.1 y.1 && py_eq x.2 y.2 |}.

(** What the proofs need of a key type: [==] is equality and [<] is a strict
    total order. *)
Class PyOrdLaws (K : Type) `{PyOrd K} := {
  py_eq_true : forall a b : K, py_eq a b = true <-> a = b;
  py_lt_irrefl : forall a : K, py_lt a a = false;
  py_lt_trans : forall a b c : K, py_lt a b = true -> py_lt b c = true -> py_lt a c = true;
  py_lt_total : forall a b : K, py_lt a b = false -> py_lt b a = false -> a = b
}.

Module PySort.
Section Sort.
Context {A K : Type} `{PyOrd K} (key : A -> K).

(** [list.sort] is a stable sort, and a stable sort by a total order has
    one possible result; it is computed here by insertion, each element
    going in front of the elements that followed it with an equal key. *)
Fixpoint insert (x : A) (l : list A) : list A :=
  match l with
  | [] => [x]
  | y :: l' => if py_lt (key y) (key x) then y :: insert x l' else x :: y :: l'
  end.

Fixpoint sort (l : list A) : list A :=
  match l with
  | [] => []
  | x :: l' => insert x (sort l')
  end.

(** The order of the result: no element is followed by a smaller one. *)
Definition key_le (x y : A) : Prop := py_lt (key y) (key x) = false.
End Sort.
End PySort.

(* ===================================================================== *)
(** * The served filesystem *)
(* ===================================================================== *)

(** A tree of regular files, directories and broken links.  A file that is
    not [readable] makes opening it raise [OSError]; a directory that is not
    [listable] makes [os.listdir] raise and [os.walk] skip it.  A [Broken]
    entry is a symbolic link that cannot be followed (it loops, or leads into
    a directory that does not exist): [os.listdir] and [os.walk] name it,
    [os.path.exists], [os.path.isdir] and [os.path.isfile] are false of it,
    and [os.stat] and [open] raise [OSError] on it.  Other symbolic links are
    not modelled. *)
Module FS.
Import PyStr.

#[warnings="-register-all"]
Inductive node :=
  | File (name : string) (st_size st_mtime : Z) (readable : bool)
  | Dir (name : string) (st_mtime : Z) (listable : bool) (children : list node)
  | Broken (name : string).

Definition node_name (n : node) : string :=
  match n with File nm _ _ _ => nm | Dir nm _ _ _ => nm | Broken nm => nm end.

(** [os.path.isdir] of an entry, which never raises. *)
Definition node_is_dir (n : node) : bool :=
  match n with Dir _ _ _ _ => true | _ => false end.

(** [os.stat] of an entry raises [OSError] on a broken link. *)
Definition node_statable (n : node) : bool :=
  match n with Broken _ => false | _ => true end.

(** [st_size] and [st_mtime] of an entry that [os.stat] accepts. *)
Definition node_size (n : node) : Z :=
  match n with File _ sz _ _ => sz | Dir _ _ _ ch => 4096 | Broken _ => 0 end.

Definition node_mtime (n : node) : Z :=
  match n with File _ _ t _ => t | Dir _ t _ _ => t | Broken _ => 0 end.

(** The entries of ["/"]. *)
Definition filesystem := list node.

Definition root_node (fs : filesystem) : node := Dir "" 0 true fs.

Fixpoint find_child (nm : string) (l : list node) : option node :=
  match l with
  | [] => None
  | n :: l' => if bool_decide (node_name n = nm) then Some n else find_child nm l'
  end.

Fixpoint lookup_from (n : node) (comps : list string) : option node :=
  match comps with
  | [] => if node_statable n then Some n else None
  | c :: cs =>
      match n with
      | Dir _ _ _ ch =>
          match find_child c ch with
          | Some n' => lookup_from n' cs
          | None => None
          end
      | _ => None
      end
  end.

(** The components of a normalized absolute path. *)
Definition components (path : string) : list string :=
  List.filter nonempty (split "/" path).

Definition stat (fs : filesystem) (path : string) : option node :=
  lookup_from (root_node fs) (components path).

(** [os.path.exists], [os.path.isfile], [os.path.isdir] *)
Definition exists_ (fs : filesystem) (path : string) : bool :=
  match stat fs path with Some _ => true | None => false end.

Definition isfile (fs : filesystem) (path : string) : bool :=
  match stat fs path with Some n => negb (node_is_dir n) | None => false end.

Definition isdir (fs : filesystem) (path : string) : bool :=
  match stat fs path with Some n => node_is_dir n | None => false end.

(** [os.listdir(path)], with the node of each name; [None] is [OSError]. *)
Definition listdir (fs : filesystem) (path : string) : option (list node) :=
  match stat fs path with
  | Some (Dir _ _ true ch) => Some ch
  | _ => None
  end.

(** Opening a file for reading; [false] is [OSError]. *)
Definition can_read (fs : filesystem) (path : string) : bool :=
  match stat fs path with
  | Some (File _ _ _ r) => r
  | _ => false
  end.

Definition dirnames (ch : list node) : list string :=
  node_name <$> List.filter node_is_dir ch.

Definition filenames (ch : list node) : list string :=
  node_name <$> List.filter (fun n => negb (node_is_dir n)) ch.

(** [os.walk(top)], top-down, errors ignored: one triple
    [(dirpath, dirnames, filenames)] for each directory reached.  The
    recursion runs over all children; a file or a broken link contributes
    nothing, so this is the recursion over [dirnames]. *)
Fixpoint walk (top : string) (n : node) : list (string * list string * list string) :=
  match n with
  | Dir _ _ listable ch =>
      if listable then
        (top, dirnames ch, filenames ch)
          :: flat_map (fun c => walk (PosixPath.join top (node_name c)) c) ch
      else []
  | _ => []
  end.

Definition os_walk (fs : filesystem) (top : string)
  : list (string * list string * list string) :=
  match stat fs top with
  | Some n => walk top n
  | None => []
  end.

(** The directories [os.makedirs] creates for the components that are
    missing; their time stamp plays no part in what follows. *)
Fixpoint fresh_dirs (comps : list string) : list node :=
  match comps with
  | [] => []
  | c :: cs => [Dir c 0 true (fresh_dirs cs)]
  end.

(** [os.makedirs(path, exist_ok=True)] below the entries [ch]: the tree
    with the missing directories added; [None] is [OSError], raised when a
    component exists and is not a directory. *)
Fixpoint makedirs_in (comps : list string) (ch : list node) : option (list node) :=
  match comps with
  | [] => Some ch
  | c :: cs =>
      (fix place (l : list node) : option (list node) :=
         match l with
         | [] => Some [Dir c 0 true (fresh_dirs cs)]
         | n :: l' =>
             if bool_decide (node_name n = c) then
               match n with
               | Dir nm t li sub =>
                   match makedirs_in cs sub with
                   | Some sub' => Some (Dir nm t li sub' :: l')
                   | None => None
                   end
               | _ => None
               end
             else
               match place l' with
               | Some l'' => Some (n :: l'')
               | None => None
               end
         end) ch
  end.

Definition makedirs (fs : filesystem) (path : string) : option filesystem :=
  makedirs_in (components path) fs.

(** [open(path, "wb")], as [file.save(path)] calls it: it succeeds when the
    parent of [path] is a directory and [path] itself is a regular file or
    does not exist; [false] is [OSError] (a missing parent, a parent that is
    not a directory, a directory or a broken link at [path]). *)
Definition can_save (fs : filesystem) (path : string) : bool :=
  match components path with
  | [] => false
  | comps =>
      match lookup_from (root_node fs) (removelast comps) with
      | Some (Dir _ _ _ ch) =>
          match find_child (List.last comps EmptyString) ch with
          | None => true
          | Some (File _ _ _ _) => true
          | Some _ => false
          end
      | _ => false
      end
  end.

(** [os.path.relpath(path, start)] for absolute normalized arguments *)
Fixpoint common_prefix_length (a b : list string) : nat :=
  match a, b with
  | x :: a', y :: b' =>
      if bool_decide (x = y) then S (common_prefix_length a' b') else O
  | _, _ => O
  end.

Definition relpath (path start : string) : string :=
  let start_list := components start in
  let path_list := components path in
  let i := common_prefix_length start_list path_list in
  let rel_list :=
    replicate (length start_list - i) ".." ++ drop i path_list in
  match rel_list with
  | [] => "."
  | _ => PyStr.join "/" rel_list
  end.

End FS.

(* ===================================================================== *)
(** * Listing entries (shared shape of the three variants) *)
(* ===================================================================== *)

(** The dictionary built for each directory entry.  Its display-only fields
    [href], [icon], [type] and [modified] (URL quoting, the MIME table and the
    local clock) take no part in ordering and are left out. *)
Record entry := Entry {
  name : string;
  modified_timestamp : Z;
  size_formatted : string;
  size_bytes : Z;
  description : string;
  is_directory : bool
}.

(** What a handler answers. *)
Inductive response :=
| Abort (code : Z)
| SendFile (path : string)
| Listing (sort_by sort_order sort_column : string) (files : list entry)
| Attachment (path download_name : string) (members : list (string * string))
| Json (code : Z) (success : bool) (text : string).

(** What a handler does to the disk. *)
Inductive fs_op :=
| MakeDirs (path : string)
| SaveFile (path : string).

(** [ICON_MAP], the same dictionary in the three files. *)
Definition ICON_MAP : gmap string string :=
  list_to_map
    [ ("directory", "folder.gif"); ("parent", "back.gif");
      ("image/jpeg", "image2.gif"); ("image/jpg", "image2.gif");
      ("image/png", "image2.gif"); ("image/gif", "image2.gif");
      ("image/webp", "image2.gif"); ("image/svg+xml", "image2.gif");
      ("application/pdf", "layout.gif"); ("text/plain", "text.gif");
      ("text/html", "layout.gif"); ("application/msword", "layout.gif");
      ("application/vnd.openxmlformats-officedocument.wordprocessingml.document",
       "layout.gif");
      ("application/zip", "compressed.gif");
      ("application/x-7z-compressed", "unknown.gif");
      ("application/x-rar-compressed", "compressed.gif");
      ("application/x-tar", "compressed.gif"); ("application/gzip", "compressed.gif");
      ("video/mp4", "movie.gif"); ("video/webm", "movie.gif");
      ("video/quicktime", "movie.gif"); ("video/x-msvideo", "movie.gif");
      ("audio/mpeg", "sound1.gif"); ("audio/wav", "sound1.gif");
      ("audio/ogg", "sound1.gif");
      ("text/x-python", "text.gif"); ("application/javascript", "text.gif");
      ("text/css", "text.gif"); ("text/x-c", "c.gif");
      ("default", "unknown.gif") ].

(** The host and the port printed in the server line of a page:
    [request.host.split(":")[0]], and [request.host.split(":")[1]] when
    [request.host] has a colon, the configured port otherwise.
    [request_host] is the value of [request.host] as werkzeug computes it:
    the host of the request without the default port of its scheme (a Host
    header [example.com:80] over http arrives as [example.com]). *)
Definition host_part (request_host : string) : string :=
  default EmptyString (head (PyStr.split ":" request_host)).

Definition port_part (default_port request_host : string) : string :=
  if PyStr.contains ":" request_host then
    default EmptyString (PyStr.split ":" request_host !! 1%nat)
  else default_port.

(* ===================================================================== *)
(** * src/app.py *)
(* ===================================================================== *)

Module App.
Import PyStr PyFloat.

(** [format_file_size(size_bytes)] *)
Definition format_file_size (size_bytes : Z) : string :=
  if size_bytes =? 0 then "  0 "
  else if size_bytes <? 1024 then format_3d size_bytes +:+ " "
  else if size_bytes <? 1024 * 1024 then
    let size_k := div_pow2 (of_int size_bytes) 10 in
    if lt_int size_k 10 then format_1f size_k +:+ "K"
    else format_3_0f size_k +:+ "K"
  else if size_bytes <? 1024 * 1024 * 1024 then
    let size_m := div_pow2 (of_int size_bytes) 20 in
    if lt_int size_m 10 then format_1f size_m +:+ "M"
    else format_3_0f size_m +:+ "M"
  else
    let size_g := div_pow2 (of_int size_bytes) 30 in
    if lt_int size_g 10 then format_1f size_g +:+ "G"
    else format_3_0f size_g +:+ "G".

(** The dictionary [file_info] of the scanning loop of
    [get_directory_listing], for an entry that [os.stat] accepts. *)
Definition file_info (item : FS.node) : entry :=
  let is_directory := FS.node_is_dir item in
  {| name := FS.node_name item;
     modified_timestamp := FS.node_mtime item;
     size_formatted :=
       if negb is_directory then format_file_size (FS.node_size item) else "  - ";
     size_bytes := if negb is_directory then FS.node_size item else 0;
     description := "";
     is_directory := is_directory |}.

(** The scanning loop over the names [os.listdir] gave: a name that starts
    with a dot is skipped; [os.stat] is called on every other one, and the
    first that raises ends the loop ([None]). *)
Definition scan (items : list FS.node) : option (list entry) :=
  mapM (fun item => if FS.node_statable item then Some (file_info item) else None)
       (List.filter (fun item => negb (startswith "." (FS.node_name item))) items).

(** [get_directory_listing(directory_path, sort_by, sort_order)]; the
    [except] clause of the scan returns the empty list. *)
Definition get_directory_listing (fs : FS.filesystem)
    (directory_path sort_by sort_order : string) : list entry :=
  match FS.listdir fs directory_path ≫= scan with
  | None => []
  | Some files =>
      let files :=
        if bool_decide (sort_by = "name") then PySort.sort name files
        else if bool_decide (sort_by = "modified") then PySort.sort modified_timestamp files
        else if bool_decide (sort_by = "size") then PySort.sort size_bytes files
        else if bool_decide (sort_by = "description") then PySort.sort description files
        else files in
      if bool_decide (sort_order = "D") then reverse files else files
  end.

(** [get_sort_url(request_path, column, current_column, current_order)] *)
Definition get_sort_url (request_path column current_column current_order : string)
  : string :=
  let new_order :=
    if bool_decide (column = current_column) then
      if bool_decide (current_order = "A") then "D" else "A"
    else if bool_decide (column = "N") then "D"
    else if bool_decide (column = "M") then "A"
    else if bool_decide (column = "S") then "A"
    else if bool_decide (column = "D") then "A"
    else "A" in
  "?C=" +:+ column +:+ ";O=" +:+ new_order.

(** The query parser of [directory_listing]: [";"] counts as ["&"], a
    segment without ["="] is dropped, a later key overwrites an earlier. *)
Definition parse_param (params : gmap string string) (param : string)
  : gmap string string :=
  if contains "=" param then
    let '(key, _, value) := partition "=" param in <[key := value]> params
  else params.

Definition parse_params (query_string : string) : gmap string string :=
  foldl parse_param ∅ (split "&" (replace ";" "&" query_string)).

(** [sort_map.get(sort_column, "name")] *)
Definition sort_map : gmap string string :=
  <["N" := "name"]> (<["M" := "modified"]> (<["S" := "size"]>
    (<["D" := "description"]> ∅))).

(** The branch [if os.path.isdir(full_path):] of [directory_listing]. *)
Definition listing_view (fs : FS.filesystem) (full_path query_string : string)
  : response :=
  let params :=
    if nonempty query_string then parse_params query_string else ∅ in
  let sort_column := default "N" (params !! "C") in
  let sort_order := default "A" (params !! "O") in
  let sort_by := default "name" (sort_map !! sort_column) in
  let files := get_directory_listing fs full_path sort_by sort_order in
  Listing sort_by sort_order sort_column files.

(** [directory_listing(subpath)] with the configured [SERVE_ROOT] and the
    request's query string. *)
Definition directory_listing (SERVE_ROOT : string) (fs : FS.filesystem)
    (query_string : string) (subpath : string) : response :=
  let subpath := UrlParse.unquote subpath in
  let full_path := PosixPath.normpath (PosixPath.join SERVE_ROOT subpath) in
  if negb (startswith (PosixPath.normpath SERVE_ROOT) full_path) then Abort 403
  else if negb (FS.exists_ fs full_path) then Abort 404
  else if FS.isfile fs full_path then SendFile full_path
  else if FS.isdir fs full_path then listing_view fs full_path query_string
  else Abort 404.

(** [get_file_icon(file_path, is_directory)]; [guess_type] is
    [mimetypes.guess_type], first component. *)
Definition get_file_icon (guess_type : string -> option string)
    (file_path : string) (is_directory : bool) : string :=
  if is_directory then ICON_MAP !!! "directory"
  else
    match guess_type file_path with
    | Some mime_type => default (ICON_MAP !!! "default") (ICON_MAP !! mime_type)
    | None => ICON_MAP !!! "default"
    end.

(** [get_file_type_label(file_path, is_directory)] *)
Definition get_file_type_label (guess_type : string -> option string)
    (file_path : string) (is_directory : bool) : string :=
  if is_directory then "DIR"
  else if endswith ".7z" (lower file_path) then "   "
  else
    match guess_type file_path with
    | Some (String _ _ as mime_type) =>
        if startswith "image/" mime_type then "IMG"
        else if startswith "video/" mime_type then "VID"
        else if startswith "audio/" mime_type then "AUD"
        else if bool_decide (mime_type = "application/pdf") then "   "
        else if bool_decide (mime_type = "text/plain") then "TXT"
        else if contains_str "compressed" mime_type || contains_str "zip" mime_type
        then "ARC"
        else "   "
    | _ => "   "
    end.

(** The parent link of [directory_listing]: [None] at the root. *)
Definition parent_dir (subpath : string) : option string :=
  if nonempty subpath then
    let parent_path := PosixPath.dirname (rstrip "/" subpath) in
    if nonempty parent_path then Some ("/" +:+ parent_path +:+ "/") else Some "/"
  else None.

(** The displayed path of [directory_listing]. *)
Definition display_path (subpath : string) : string :=
  if nonempty subpath then "/" +:+ rstrip "/" subpath else "/".

(** The server line of the listing page. *)
Definition server_info (request_host : string) : string :=
  "Apache/2.4.62 (Ubuntu) Server at " +:+ host_part request_host
    +:+ " Port " +:+ port_part "5001" request_host.

End App.

(* ===================================================================== *)
(** * Requests, exceptions and temporary files *)
(* ===================================================================== *)

(** The parts of a Flask request the handlers read: the raw query string,
    Flask's parsed view of it ([request.args]), the file names of the
    multipart file fields ([request.files]) and the text fields
    ([request.form]). *)
Record request := Request {
  query_string : string;
  args : gmap string string;
  files : gmap string string;
  form : gmap string string
}.

(** What a [try] block can catch here. *)
Inductive exn :=
| HTTPException (code : Z)
| OSError.

(** A response together with the temporary files it leaves on disk when the
    handler returns and those its [call_on_close] hooks unlink once the
    response has been sent. *)
Record served := Served {
  answer : response;
  temp_files : list string;
  on_close : list string
}.

(** The temporary files still on disk after the response was closed. *)
Definition after_close (r : served) : list string :=
  List.filter (fun f => negb (bool_decide (f ∈ on_close r))) (temp_files r).

(** The files an archive is built from: every name of every [files] list of
    the walk that does not start with ["."], joined to its directory.  Both
    archive builders run this double loop. *)
Definition archive_sources (fs : FS.filesystem) (target : string) : list string :=
  flat_map
    (fun '(root, _, files) =>
       PosixPath.join root <$>
         List.filter (fun file => negb (PyStr.startswith "." file)) files)
    (FS.os_walk fs target).

(** [zipf.write(file_path, arc_name)] for each source in turn; [None] when
    one of them cannot be read ([OSError]). *)
Definition write_members (fs : FS.filesystem) (arc_name : string -> string)
    (sources : list string) : option (list (string * string)) :=
  mapM (fun file_path =>
          if FS.can_read fs file_path then Some (file_path, arc_name file_path)
          else None)
       sources.

(** [os.makedirs(path, exist_ok=True)] raises when a component of [path]
    exists and is not a directory. *)
Fixpoint makedirs_blocked (n : FS.node) (comps : list string) : bool :=
  match n with
  | FS.Dir _ _ _ ch =>
      match comps with
      | [] => false
      | c :: cs =>
          match FS.find_child c ch with
          | Some n' => makedirs_blocked n' cs
          | None => false
          end
      end
  | _ => true
  end.

Definition makedirs_ok (fs : FS.filesystem) (path : string) : bool :=
  negb (makedirs_blocked (FS.root_node fs) (FS.components path)).

(* ===================================================================== *)
(** * src/src/flask-directory-listing/__main__.py *)
(* ===================================================================== *)

Module OsPathMain.
Import PyStr PyFloat.

(** [format_file_size], [get_directory_listing]'s scanning loop and the
    query parser are, word for word, those of src/app.py. *)
Definition format_file_size : Z -> string := App.format_file_size.
Definition scan : list FS.node -> option (list entry) := App.scan.
Definition parse_params : string -> gmap string string := App.parse_params.
Definition sort_map : gmap string string := App.sort_map.

(** [get_directory_listing(directory_path, sort_by, sort_order, apache_style)] *)
Definition get_directory_listing (fs : FS.filesystem)
    (directory_path sort_by sort_order : string) (apache_style : bool)
  : list entry :=
  match FS.listdir fs directory_path ≫= scan with
  | None => []
  | Some files =>
      let files :=
        if apache_style then
          if bool_decide (sort_by = "name") then PySort.sort name files
          else if bool_decide (sort_by = "modified") then
            PySort.sort modified_timestamp files
          else if bool_decide (sort_by = "size") then PySort.sort size_bytes files
          else if bool_decide (sort_by = "description") then
            PySort.sort description files
          else files
        else
          if bool_decide (sort_by = "name") then
            PySort.sort (fun x => (negb (is_directory x), name x)) files
          else if bool_decide (sort_by = "modified") then
            PySort.sort (fun x => (negb (is_directory x), modified_timestamp x)) files
          else if bool_decide (sort_by = "size") then
            PySort.sort (fun x => (negb (is_directory x), size_bytes x)) files
          else if bool_decide (sort_by = "description") then
            PySort.sort (fun x => (negb (is_directory x), description x)) files
          else files in
      if bool_decide (sort_order = "D") then reverse files else files
  end.

(** [get_sort_url(request_path, column, current_column, current_order)],
    reading the module constant [APACHE_STYLE_SORTING]. *)
Definition get_sort_url (APACHE_STYLE_SORTING : bool)
    (request_path column current_column current_order : string) : string :=
  let apache_style := APACHE_STYLE_SORTING in
  let new_order :=
    if bool_decide (column = current_column) then
      if bool_decide (current_order = "A") then "D" else "A"
    else if bool_decide (column = "N") then (if apache_style then "D" else "A")
    else if bool_decide (column = "M") then "A"
    else if bool_decide (column = "S") then "A"
    else if bool_decide (column = "D") then "A"
    else "A" in
  "?C=" +:+ column +:+ ";O=" +:+ new_order.

(** The [try] block of [download_directory_as_zip]: the temporary files on
    disk when it ends, and either the exception that ended it or the
    response with the file its close hook unlinks. *)
Definition download_try (SERVE_ROOT : string) (fs : FS.filesystem) (tmp : string)
    (full_path download_param : string)
  : list string * (exn + response * list string) :=
  let target_dir := PosixPath.normpath (PosixPath.join full_path download_param) in
  if negb (startswith (PosixPath.normpath SERVE_ROOT) target_dir) then
    ([], inl (HTTPException 403))
  else if negb (FS.exists_ fs target_dir) || negb (FS.isdir fs target_dir) then
    ([], inl (HTTPException 404))
  else
    match write_members fs (fun file_path => FS.relpath file_path target_dir)
                        (archive_sources fs target_dir) with
    | None => ([tmp], inl OSError)
    | Some members =>
        ([tmp], inr (Attachment tmp (download_param +:+ ".zip") members, [tmp]))
    end.

(** [download_directory_as_zip(full_path, download_param, subpath)]; [tmp]
    is the name [tempfile.NamedTemporaryFile] picks.  The handler is
    [except Exception: abort(500)], which also catches the [abort]s of the
    block. *)
Definition download_directory_as_zip (SERVE_ROOT : string) (fs : FS.filesystem)
    (tmp : string) (full_path download_param subpath : string) : served :=
  match download_try SERVE_ROOT fs tmp full_path download_param with
  | (disk, inl _) => Served (Abort 500) disk []
  | (disk, inr (resp, hooks)) => Served resp disk hooks
  end.

(** The listing part of [directory_listing], from the query string on. *)
Definition listing_view (APACHE_STYLE_SORTING : bool) (fs : FS.filesystem)
    (full_path query_string : string) : response :=
  let params :=
    if nonempty query_string then parse_params query_string else ∅ in
  let sort_column := default "N" (params !! "C") in
  let sort_order := default "A" (params !! "O") in
  let apache_param := lower (default "" (params !! "apache")) in
  let apache_style :=
    if bool_decide (apache_param ∈ ["true"; "1"; "yes"]) then true
    else if bool_decide (apache_param ∈ ["false"; "0"; "no"]) then false
    else APACHE_STYLE_SORTING in
  let sort_by := default "name" (sort_map !! sort_column) in
  let files :=
    get_directory_listing fs full_path sort_by sort_order apache_style in
  Listing sort_by sort_order sort_column files.

(** [directory_listing(subpath)] *)
Definition directory_listing (SERVE_ROOT : string) (APACHE_STYLE_SORTING : bool)
    (fs : FS.filesystem) (tmp : string) (req : request) (subpath : string)
  : served :=
  let subpath := UrlParse.unquote subpath in
  let full_path := PosixPath.normpath (PosixPath.join SERVE_ROOT subpath) in
  if negb (startswith (PosixPath.normpath SERVE_ROOT) full_path) then
    Served (Abort 403) [] []
  else if negb (FS.exists_ fs full_path) then Served (Abort 404) [] []
  else if FS.isfile fs full_path then Served (SendFile full_path) [] []
  else if FS.isdir fs full_path then
    match args req !! "download" with
    | Some (String c d as download_param) =>
        download_directory_as_zip SERVE_ROOT fs tmp full_path download_param subpath
    | _ =>
        Served (listing_view APACHE_STYLE_SORTING fs full_path (query_string req)) [] []
    end
  else Served (Abort 404) [] [].

(** The placement part of [upload_file], inside its [try] block.  The
    filesystem is threaded through: [file.save] runs on the tree that
    [os.makedirs] left.  With a slash in the relative path the file goes to
    its base name below the created directory; without one it goes to the
    raw [file.filename] below the target directory.  An exception of
    [file.save] is answered 500 by the [except] clause, with the text of the
    exception, which is not detailed here. *)
Definition place_upload (fs : FS.filesystem) (full_path filename : string)
    (req : request) : response * list fs_op :=
  let relative_path := default filename (form req !! "path") in
  let relative_path := lstrip "/" (replace backslash "/" relative_path) in
  let uploaded :=
    Json 200 true ("File " +:+ relative_path +:+ " uploaded successfully") in
  let save (fs : FS.filesystem) (done : list fs_op) (file_path : string)
    : response * list fs_op :=
    let file_path := PosixPath.normpath file_path in
    if negb (startswith full_path file_path) then
      (Json 400 false "Invalid filename", done)
    else if negb (FS.can_save fs file_path) then (Json 500 false "OSError", done)
    else (uploaded, done ++ [SaveFile file_path]) in
  if contains "/" relative_path then
    let dir_structure := PosixPath.dirname relative_path in
    let filename := PosixPath.basename relative_path in
    let target_dir := PosixPath.normpath (PosixPath.join full_path dir_structure) in
    if negb (startswith full_path target_dir) then
      (Json 400 false "Invalid directory path", [])
    else
      match FS.makedirs fs target_dir with
      | None => (Json 500 false "Failed to create directory", [])
      | Some fs => save fs [MakeDirs target_dir] (PosixPath.join target_dir filename)
      end
  else save fs [] (PosixPath.join full_path filename).

(** [upload_file(subpath)] *)
Definition upload_file (SERVE_ROOT : string) (fs : FS.filesystem) (req : request)
    (subpath : string) : response * list fs_op :=
  let subpath := UrlParse.unquote subpath in
  let full_path := PosixPath.normpath (PosixPath.join SERVE_ROOT subpath) in
  if negb (startswith (PosixPath.normpath SERVE_ROOT) full_path) then
    (Json 403 false "Access denied", [])
  else if negb (FS.exists_ fs full_path) || negb (FS.isdir fs full_path) then
    (Json 404 false "Directory not found", [])
  else if negb (bool_decide (is_Some (args req !! "upload"))) then
    (Json 400 false "Invalid request", [])
  else
    match files req !! "file" with
    | None => (Json 400 false "No file uploaded", [])
    | Some filename =>
        if bool_decide (filename = "") then (Json 400 false "No file selected", [])
        else place_upload fs full_path filename req
    end.

(** [get_file_icon], [get_file_type_label] and the parent link and displayed
    path of [directory_listing] are, word for word, those of src/app.py. *)
Definition get_file_icon := App.get_file_icon.
Definition get_file_type_label := App.get_file_type_label.
Definition parent_dir : string -> option string := App.parent_dir.
Definition display_path : string -> string := App.display_path.

(** The server line of the listing page and of the error pages. *)
Definition server_info (SERVER_NAME request_host : string) : string :=
  SERVER_NAME +:+ " at " +:+ host_part request_host
    +:+ " Port " +:+ port_part "5001" request_host.

End OsPathMain.

(* ===================================================================== *)
(** * pathlib *)
(* ===================================================================== *)

(** A [PurePosixPath]: whether it is anchored at ["/"], and its components.
    Parsing drops empty and ["."] components and keeps [".."].  (The special
    root ["//"] is not modelled.) *)
Module Pathlib.
Import PyStr.

Record path := Path { absolute : bool; parts : list string }.

#[export] Instance path_eq_dec : EqDecision path.
Proof. solve_decision. Defined.

(** [Path(s)] *)
Definition parse (s : string) : path :=
  {| absolute := startswith "/" s;
     parts := List.filter (fun c => nonempty c && negb (bool_decide (c = ".")))
                          (split "/" s) |}.

(** [str(p)] *)
Definition str (p : path) : string :=
  if absolute p then "/" +:+ join "/" (parts p)
  else match parts p with [] => "." | _ => join "/" (parts p) end.

(** [p / s]: an absolute [s] replaces [p]. *)
Definition truediv (p : path) (s : string) : path :=
  let q := parse s in
  if absolute q then q else Path (absolute p) (parts p ++ parts q).

(** [p.is_relative_to(other)]: a comparison of components, not of text *)
Definition is_relative_to (p other : path) : bool :=
  bool_decide (absolute p = absolute other)
  && bool_decide (take (length (parts other)) (parts p) = parts other).

(** [p.relative_to(other)]; [None] is [ValueError]. *)
Definition relative_to (p other : path) : option path :=
  if is_relative_to p other then
    Some (Path false (drop (length (parts other)) (parts p)))
  else None.

(** [p.parent] *)
Definition parent (p : path) : path :=
  Path (absolute p) (removelast (parts p)).

(** [p.resolve()] where no component is a symbolic link: [".."] steps up,
    and not above the root.  [cwd] anchors a relative path. *)
Definition resolve_step (acc : list string) (c : string) : list string :=
  if bool_decide (c = "..") then removelast acc else acc ++ [c].

Definition resolve_lexical (cwd : list string) (p : path) : path :=
  Path true (foldl resolve_step (if absolute p then [] else cwd) (parts p)).

(** [p.name] *)
Definition name_of (p : path) : string := default EmptyString (last (parts p)).

(** The text of [name] from its last dot on, and the position of that dot. *)
Fixpoint rfind_dot (name : string) : option (nat * string) :=
  match name with
  | EmptyString => None
  | String a name' =>
      match rfind_dot name' with
      | Some (i, suffix) => Some (S i, suffix)
      | None => if ascii_eqb a "." then Some (O, name) else None
      end
  end.

(** [p.suffix] (Python 3.9 to 3.12): [name[i:]] for [i = name.rfind(".")]
    when [0 < i < len(name) - 1], the empty string otherwise. *)
Definition suffix_of_name (name : string) : string :=
  match rfind_dot name with
  | Some (i, suffix) =>
      if ((0 <? i) && (i <? String.length name - 1))%nat then suffix
      else EmptyString
  | None => EmptyString
  end.

Definition suffix (p : path) : string := suffix_of_name (name_of p).

End Pathlib.

(* ===================================================================== *)
(** * src/src/flask_directory_listing/__main__.py *)
(* ===================================================================== *)

Module PathlibMain.
Import PyStr PyFloat Pathlib.

(** [format_size(size)]: one running quotient, each comparison against
    [step = 1024.0]. *)
Definition format_size (size : Z) : string :=
  if size =? 0 then "  0 "
  else if size <? 1024 then format_3d size +:+ " "
  else
    let size_k := div_pow2 (of_int size) 10 in
    if lt_int size_k 1024 then
      if lt_int size_k 10 then format_1f size_k +:+ "K"
      else format_3_0f size_k +:+ "K"
    else
      let size_m := div_pow2 size_k 10 in
      if lt_int size_m 1024 then
        if lt_int size_m 10 then format_1f size_m +:+ "M"
        else format_3_0f size_m +:+ "M"
      else
        let size_g := div_pow2 size_m 10 in
        if lt_int size_g 10 then format_1f size_g +:+ "G"
        else format_3_0f size_g +:+ "G".

(** The dictionary appended for an [item] of [directory.iterdir()] that
    [item.stat()] accepts. *)
Definition make_entry (item : FS.node) : entry :=
  let is_dir := FS.node_is_dir item in
  {| name := FS.node_name item;
     modified_timestamp := FS.node_mtime item;
     size_formatted := if negb is_dir then format_size (FS.node_size item) else "  - ";
     size_bytes := if negb is_dir then FS.node_size item else 0;
     description := "";
     is_directory := is_dir |}.

(** The loop over [directory.iterdir()]: a name that starts with a dot is
    skipped; [item.stat()] is called on every other one, and the first that
    raises ends the loop ([None]). *)
Definition scan (items : list FS.node) : option (list entry) :=
  mapM (fun item => if FS.node_statable item then Some (make_entry item) else None)
       (List.filter (fun item => negb (startswith "." (FS.node_name item))) items).

(** [entries.sort(key=sort_key)]: [sort_key] looks [sort_by] up in a
    four-entry dictionary, so an unknown [sort_by] raises [KeyError] as soon
    as there is an entry to compute a key for ([None]). *)
Definition sort_entries (sort_by : string) (apache_style : bool)
    (entries : list entry) : option (list entry) :=
  let by_key {V} `{PyOrd V} (value : entry -> V) : list entry :=
    if apache_style then PySort.sort value entries
    else PySort.sort (fun entry => (negb (is_directory entry), value entry)) entries in
  if bool_decide (sort_by = "name") then Some (by_key name)
  else if bool_decide (sort_by = "modified") then Some (by_key modified_timestamp)
  else if bool_decide (sort_by = "size") then Some (by_key size_bytes)
  else if bool_decide (sort_by = "description") then Some (by_key description)
  else match entries with [] => Some [] | _ => None end.

(** [directory_listing_data(directory, sort_by, sort_order, apache_style)];
    the [except] clause of the scan returns the empty list, and [None] is the
    [KeyError] of [sort_key]. *)
Definition directory_listing_data (fs : FS.filesystem) (directory : path)
    (sort_by sort_order : string) (apache_style : bool) : option (list entry) :=
  match FS.listdir fs (str directory) ≫= scan with
  | None => Some []
  | Some entries =>
      entries ← sort_entries sort_by apache_style entries;
      Some (if bool_decide (sort_order = "D") then reverse entries else entries)
  end.

(** [sort_url(column, current_column, current_order)], reading
    [config()["APACHE_STYLE_SORTING"]]. *)
Definition sort_url (APACHE_STYLE_SORTING : bool)
    (column current_column current_order : string) : string :=
  let apache_style := APACHE_STYLE_SORTING in
  let new_order :=
    if bool_decide (column = current_column) then
      if bool_decide (current_order = "A") then "D" else "A"
    else if bool_decide (column = "N") && apache_style then "D" else "A" in
  "?C=" +:+ column +:+ ";O=" +:+ new_order.

(** [{k: v[0] for k, v in parse_qs(raw_query).items() if v}] *)
Definition parse_params (query_string : string) : gmap string string :=
  omap head (UrlParse.parse_qs (replace ";" "&" query_string)).

Definition sort_map : gmap string string :=
  <["N" := "name"]> (<["M" := "modified"]> (<["S" := "size"]>
    (<["D" := "description"]> ∅))).

(** [file_icon(path, is_dir)]; [guess_type] is [mimetypes.guess_type], first
    component, applied to [path.name]. *)
Definition file_icon (guess_type : string -> option string) (path : path)
    (is_dir : bool) : string :=
  if is_dir then ICON_MAP !!! "directory"
  else
    let mime := guess_type (name_of path) in
    let key :=
      match mime with
      | Some (String _ _ as m) => m
      | _ => "default"
      end in
    default (ICON_MAP !!! "default") (ICON_MAP !! key).

(** [file_label(path, is_dir)] *)
Definition file_label (guess_type : string -> option string) (path : path)
    (is_dir : bool) : string :=
  if is_dir then "DIR"
  else if bool_decide (lower (suffix path) = ".7z") then "   "
  else
    match guess_type (name_of path) with
    | Some (String _ _ as mime) =>
        if startswith "image/" mime then "IMG"
        else if startswith "video/" mime then "VID"
        else if startswith "audio/" mime then "AUD"
        else if bool_decide (mime = "application/pdf") then "   "
        else if bool_decide (mime = "text/plain") then "TXT"
        else if contains_str "compressed" mime || contains_str "zip" mime then "ARC"
        else "   "
    | _ => "   "
    end.

(** The parent link of [list_endpoint]: [None] at the root. *)
Definition parent_dir (subpath : string) : option string :=
  if nonempty subpath then
    let parent := "/" +:+ rstrip "/" subpath in
    let parent_dir := PosixPath.dirname parent +:+ "/" in
    if bool_decide (parent_dir = "//") then Some "/" else Some parent_dir
  else None.

(** The displayed path of [list_endpoint]. *)
Definition display_path (subpath : string) : string :=
  if nonempty subpath then "/" +:+ rstrip "/" subpath else "/".

(** The server line of the listing page and of the error pages;
    [PORT] is [str(config()["PORT"])]. *)
Definition server_info (SERVER_BANNER PORT request_host : string) : string :=
  SERVER_BANNER +:+ " at " +:+ host_part request_host
    +:+ " Port " +:+ port_part PORT request_host.

Section Handlers.
(** The configuration: [SERVE_ROOT] (resolved at start-up) and
    [APACHE_STYLE_SORTING]; and [Path.resolve] as the operating system
    computes it on the served tree. *)
Variable SERVE_ROOT : path.
Variable APACHE_STYLE_SORTING : bool.
Variable resolve : path -> path.
Variable fs : FS.filesystem.

(** [inside_root(candidate)] *)
Definition inside_root (candidate : path) : bool :=
  is_relative_to (resolve candidate) SERVE_ROOT.

(** The walk of [download_directory_as_zip]: each source with its archive
    name; [None] when [relative_to] or reading a source raises. *)
Definition zip_members (target : path) : option (list (string * string)) :=
  mapM (fun file_path : path =>
          arc ← relative_to file_path target;
          if FS.can_read fs (str file_path) then Some (str file_path, str arc)
          else None)
       (flat_map
          (fun '(root_dir, _, files) =>
             truediv (parse root_dir) <$>
               List.filter (fun name => negb (startswith "." name)) files)
          (FS.os_walk fs (str target))).

(** [download_directory_as_zip(directory, child)]; the [except] clause
    unlinks the temporary file before [abort(500)]. *)
Definition download_directory_as_zip (tmp : string) (directory : path)
    (child : string) : served :=
  let target := resolve (truediv directory child) in
  if negb (inside_root target) || negb (FS.isdir fs (str target)) then
    Served (Abort (if FS.exists_ fs (str target) then 403 else 404)) [] []
  else
    match zip_members target with
    | Some members =>
        Served (Attachment tmp (child +:+ ".zip") members) [tmp] [tmp]
    | None => Served (Abort 500) [] []
    end.

(** The listing part of [list_endpoint], from the query string on; an
    exception that escapes the view is Flask's response 500. *)
Definition listing_view (target : path) (query_string : string) : response :=
  let params := parse_params query_string in
  let sort_column := default "N" (params !! "C") in
  let sort_order := default "A" (params !! "O") in
  let apache_flag := lower (default "" (params !! "apache")) in
  let apache_style :=
    if bool_decide (apache_flag ∈ ["true"; "1"; "yes"]) then true
    else if bool_decide (apache_flag ∈ ["false"; "0"; "no"]) then false
    else APACHE_STYLE_SORTING in
  let sort_by := default "name" (sort_map !! sort_column) in
  match directory_listing_data fs target sort_by sort_order apache_style with
  | Some files => Listing sort_by sort_order sort_column files
  | None => Abort 500
  end.

(** [list_endpoint(subpath)] *)
Definition list_endpoint (tmp : string) (req : request) (subpath : string)
  : served :=
  let subpath := UrlParse.unquote subpath in
  let target := resolve (truediv SERVE_ROOT subpath) in
  if negb (inside_root target) then Served (Abort 403) [] []
  else if negb (FS.exists_ fs (str target)) then Served (Abort 404) [] []
  else if FS.isfile fs (str target) then Served (SendFile (str target)) [] []
  else
    match args req !! "download" with
    | Some (String c d as download_name) =>
        download_directory_as_zip tmp target download_name
    | _ => Served (listing_view target (query_string req)) [] []
    end.

(** [upload_endpoint(subpath)] *)
Definition upload_endpoint (req : request) (subpath : string)
  : response * list fs_op :=
  let subpath := UrlParse.unquote subpath in
  let target_dir := resolve (truediv SERVE_ROOT subpath) in
  if negb (inside_root target_dir) then (Json 403 false "Access denied", [])
  else if negb (FS.exists_ fs (str target_dir)) || negb (FS.isdir fs (str target_dir))
  then (Json 404 false "Directory not found", [])
  else if negb (bool_decide (is_Some (args req !! "upload"))) then
    (Json 400 false "Invalid request", [])
  else
    match files req !! "file" with
    | None => (Json 400 false "No file uploaded", [])
    | Some filename =>
        if negb (nonempty filename) then (Json 400 false "No file selected", [])
        else
          let relative_path :=
            lstrip "/" (replace backslash "/" (default filename (form req !! "path"))) in
          let destination := resolve (truediv target_dir relative_path) in
          if negb (inside_root destination) then (Json 400 false "Invalid path", [])
          else if negb (makedirs_ok fs (str (parent destination))) then
            (Abort 500, [])
          else if FS.isdir fs (str destination) then
            (Json 500 false "Is a directory", [MakeDirs (str (parent destination))])
          else
            (Json 200 true ("File " +:+ relative_path +:+ " uploaded successfully"),
             [MakeDirs (str (parent destination)); SaveFile (str destination)])
    end.

End Handlers.
End PathlibMain.

(* ===================================================================== *)
(** * A served tree used by the examples *)
(* ===================================================================== *)

Module Samples.
Import FS.

(** [/srv/share] is the served root; [/srv/share-evil] is its sibling.
    Time stamps are seconds since the epoch. *)
Definition share : list node :=
  [ File "a.txt" 512 1700000100 true;
    Dir "sub" 1700000110 true [File "b.txt" 2048 1700000120 true];
    File ".secret" 7 1700000130 true;
    Dir ".git" 1700000140 true [File "config" 92 1700000150 true] ].

Definition disk : filesystem :=
  [ Dir "srv" 1700000010 true
      [ Dir "share" 1700000020 true share;
        Dir "share-evil" 1700000030 true [File "secret.txt" 11 1700000040 true] ];
    Dir "etc" 1700000050 true [File "passwd" 1024 1700000060 true] ].

(** The same tree with [sub/b.txt] unreadable. *)
Definition disk_unreadable : filesystem :=
  [ Dir "srv" 1700000010 true
      [ Dir "share" 1700000020 true
          [ File "a.txt" 512 1700000100 true;
            Dir "sub" 1700000110 true [File "b.txt" 2048 1700000120 false] ] ] ].

(** [/srv/share/project] holds [a.txt], [sub/b.txt], the hidden file
    [.secret] and the hidden directory [.git]. *)
Definition project_disk : filesystem :=
  [ Dir "srv" 1700000010 true
      [ Dir "share" 1700000020 true
          [ Dir "project" 1700000025 true
              [ File "a.txt" 512 1700000100 true;
                Dir "sub" 1700000110 true [File "b.txt" 2048 1700000120 true];
                File ".secret" 7 1700000130 true;
                Dir ".git" 1700000140 true [File "config" 92 1700000150 true] ] ] ] ].

(** [/srv/share] with a broken link beside its file. *)
Definition disk_broken_link : filesystem :=
  [ Dir "srv" 1700000010 true
      [ Dir "share" 1700000020 true
          [File "a.txt" 512 1700000100 true; Broken "dangling"] ] ].

Definition no_request : request := Request "" ∅ ∅ ∅.

Definition download_request (child : string) : request :=
  Request ("download=" +:+ child) {[ "download" := child ]} ∅ ∅.

Definition upload_request (filename path : string) : request :=
  Request "upload" {[ "upload" := "" ]} {[ "file" := filename ]} {[ "path" := path ]}.

Definition root : Pathlib.path := Pathlib.parse "/srv/share".

End Samples.

(* ===================================================================== *)
(** * The vocabulary of the specification *)
(* ===================================================================== *)

(** The sort specification of the data model: a column, an order, a style,
    and how the handlers spell them. *)
Module SortSpec.

Inductive column := Name | Modified | Size | Description.
Inductive order := Ascending | Descending.
Inductive style := DirectoriesFirst | Mixed.

#[export] Instance column_eq_dec : EqDecision column.
Proof. solve_decision. Defined.

(** The value of the query parameter [C]. *)
Definition column_code (c : column) : string :=
  match c with Name => "N" | Modified => "M" | Size => "S" | Description => "D" end.

(** The value [sort_map] gives the column. *)
Definition sort_by_of (c : column) : string :=
  match c with
  | Name => "name" | Modified => "modified" | Size => "size"
  | Description => "description"
  end.

(** The value of the query parameter [O]. *)
Definition order_code (o : order) : string :=
  match o with Ascending => "A" | Descending => "D" end.

(** The flag [apache_style]. *)
Definition apache_style_of (s : style) : bool :=
  match s with Mixed => true | DirectoriesFirst => false end.

Definition opposite (o : order) : order :=
  match o with Ascending => Descending | Descending => Ascending end.

(** The order a column starts with when it was not the active one. *)
Definition default_order (s : style) (c : column) : order :=
  match c, s with
  | Name, Mixed => Descending
  | _, _ => Ascending
  end.

(** The order a click on [target] leads to. *)
Definition next_order (s : style) (active : column) (o : order) (target : column)
  : order :=
  if decide (target = active) then opposite o else default_order s target.

(** The link of a column header. *)
Definition sort_link (c : column) (o : order) : string :=
  "?C=" +:+ column_code c +:+ ";O=" +:+ order_code o.

(** Ascending order of the column's key. *)
Definition value_le (c : column) : relation entry :=
  match c with
  | Name => PySort.key_le name
  | Modified => PySort.key_le modified_timestamp
  | Size => PySort.key_le size_bytes
  | Description => PySort.key_le description
  end.

(** Ascending order of the sort key of a style: under the Mixed style the
    column's key alone; under the DirectoriesFirst style no file stands
    before a directory, and two directories, or two files, stand in the order
    of the column's key. *)
Definition key_le (c : column) (s : style) : relation entry :=
  match s with
  | Mixed => value_le c
  | DirectoriesFirst => fun a b =>
      (is_directory b = true -> is_directory a = true)
      /\ (is_directory a = is_directory b -> value_le c a b)
  end.

(** Two entries the sort cannot tell apart: a tie. *)
Definition same_key (c : column) (s : style) (a b : entry) : bool :=
  (apache_style_of s || Bool.eqb (is_directory a) (is_directory b))
  && match c with
     | Name => py_eq (name a) (name b)
     | Modified => py_eq (modified_timestamp a) (modified_timestamp b)
     | Size => py_eq (size_bytes a) (size_bytes b)
     | Description => py_eq (description a) (description b)
     end.

(** Every directory stands before every file. *)
Definition dirs_before_files (l : list entry) : Prop :=
  forall (i j : nat) (d f : entry),
    l !! i = Some d -> l !! j = Some f ->
    is_directory d = true -> is_directory f = false -> (i < j)%nat.

(** The first entry, if a directory is listed at all, is a directory. *)
Definition starts_with_dir (l : list entry) : Prop :=
  forall d : entry, d ∈ l -> is_directory d = true ->
    exists h : entry, head l = Some h /\ is_directory h = true.

(** The listing the specification describes: a stable sort by the column's
    key, the directories first unless the style is Mixed; reversed as a whole
    when the order is descending. *)
Definition sorted_by (c : column) (s : style) (l : list entry) : list entry :=
  match s, c with
  | Mixed, Name => PySort.sort name l
  | Mixed, Modified => PySort.sort modified_timestamp l
  | Mixed, Size => PySort.sort size_bytes l
  | Mixed, Description => PySort.sort description l
  | DirectoriesFirst, Name => PySort.sort (fun x => (negb (is_directory x), name x)) l
  | DirectoriesFirst, Modified =>
      PySort.sort (fun x => (negb (is_directory x), modified_timestamp x)) l
  | DirectoriesFirst, Size =>
      PySort.sort (fun x => (negb (is_directory x), size_bytes x)) l
  | DirectoriesFirst, Description =>
      PySort.sort (fun x => (negb (is_directory x), description x)) l
  end.

Definition listed (c : column) (s : style) (o : order) (l : list entry)
  : list entry :=
  match o with
  | Ascending => sorted_by c s l
  | Descending => reverse (sorted_by c s l)
  end.

(** The entries of a directory whose names do not start with a dot. *)
Definition visible (items : list FS.node) : list FS.node :=
  List.filter (fun item => negb (PyStr.startswith "." (FS.node_name item))) items.



(** [asc] is the stable sort of [scanned] by the key of the column and the
    style, and [desc] is [asc] backwards: [asc] is in the order of the key,
    holds the scanned entries, and shows the entries of a tie in the order of
    the scan; [desc] shows them in the opposite order. *)
Definition stable_sort_reversed (c : column) (s : style)
    (scanned asc desc : list entry) : Prop :=
  StronglySorted (key_le c s) asc
  /\ asc ≡ₚ scanned
  /\ (forall e : entry,
        List.filter (fun x => same_key c s x e) asc
        = List.filter (fun x => same_key c s x e) scanned)
  /\ desc = reverse asc
  /\ (forall e : entry,
        List.filter (fun x => same_key c s x e) desc
        = reverse (List.filter (fun x => same_key c s x e) scanned)).

(** What the DirectoriesFirst style promises for a column: the directories
    then the files, each group in the order of the column's key. *)
Definition directories_first (c : column) (l : list entry) : Prop :=
  dirs_before_files l
  /\ Sorted (value_le c) (List.filter is_directory l)
  /\ Sorted (value_le c) (List.filter (fun x => negb (is_directory x)) l)
  /\ starts_with_dir l.

End SortSpec.

(** The fields of a query string as both parsers cut them: [";"] counts as
    ["&"], and a segment with an ["="] is a key and a value. *)
Module Query.
Import PyStr.

Definition field_of (segment : string) : list (string * string) :=
  if contains "=" segment then
    let '(key, _, value) := partition "=" segment in [(key, value)]
  else [].

Definition fields (query_string : string) : list (string * string) :=
  flat_map field_of (split "&" (replace ";" "&" query_string)).

(** No percent escape and no plus sign: nothing for [parse_qs] to decode. *)
Definition plain (query_string : string) : Prop :=
  contains "%" query_string = false /\ contains "+" query_string = false.

(** Every occurrence of [key] carries the value [v], and [v] is not empty. *)
Definition single_valued (key : string) (query_string : string) : Prop :=
  exists v : string,
    v <> EmptyString /\
    forall w : string, (key, w) ∈ fields query_string -> w = v.

(** What the hand-written parser keeps for [key]: the last value. *)
Definition keep_last (key : string) (acc : option string) (kv : string * string)
  : option string :=
  if decide (kv.1 = key) then Some kv.2 else acc.

(** The values [parse_qs] collects for [key]. *)
Definition values_of (key : string) (kvs : list (string * string)) : list string :=
  snd <$> List.filter (fun kv => bool_decide (kv.1 = key)) kvs.

(** A field [parse_qs] does not drop: its value is not blank. *)
Definition nonblank (kv : string * string) : bool := nonempty kv.2.

End Query.

(** The size column as the specification words it, with no part of the
    formatters in it: numbers are integers and fractions of integers, and a
    text is given by its digits. *)
Module SizeSpec.

(** The decimal digits of a natural number. *)
Definition digits (n : Z) : string := NilZero.string_of_uint (N.to_uint (Z.to_N n)).

Fixpoint spaces (n : nat) : string :=
  match n with
  | O => EmptyString
  | S n' => String " " (spaces n')
  end.

(** [s] moved to the right end of a field of [w] characters; a longer [s]
    is left as it is. *)
Definition right_justified (w : nat) (s : string) : string :=
  spaces (w - String.length s) +:+ s.

(** [t] tenths, written with one decimal place. *)
Definition one_decimal (t : Z) : string :=
  digits (t / 10) +:+ "." +:+ digits (t mod 10).

(** [t] is the integer nearest to [num / den], the even one of the two when
    [num / den] lies halfway between them. *)
Definition nearest (num den t : Z) : Prop :=
  2 * Z.abs (num - t * den) <= den
  /\ (2 * Z.abs (num - t * den) = den -> Z.even t = true).

(** [out] shows [x / 2 ^ k] with its [unit]: below ten to the nearest tenth
    with one decimal place, otherwise to the nearest integer, right-justified
    to width three. *)
Definition scaled (x k : Z) (unit out : string) : Prop :=
  if x <? 10 * 2 ^ k
  then exists t, nearest (10 * x) (2 ^ k) t /\ out = one_decimal t +:+ unit
  else exists t, nearest x (2 ^ k) t /\ out = right_justified 3 (digits t) +:+ unit.

(** [x] is the double nearest to the natural number [n]: [n] itself while
    it has at most 53 bits, and otherwise the nearest multiple of the power of
    two that leaves 53 bits. *)
Definition nearest_double (n x : Z) : Prop :=
  let sh := Z.max 0 (Z.log2 n - 52) in
  exists m, x = m * 2 ^ sh /\ nearest n (2 ^ sh) m.

End SizeSpec.

(** What the upload handlers are asked and what they do, for the statements
    about them. *)
Module Transfer.

(** The same request with another [path] field. *)
Definition with_path (req : request) (path : string) : request :=
  Request (query_string req) (args req) (files req) (<["path" := path]> (form req)).

(** The operations of an upload that save a file. *)
Definition saves (ops : list fs_op) : list string :=
  omap (fun op => match op with SaveFile p => Some p | MakeDirs _ => None end) ops.

(** The path an operation writes to. *)
Definition op_path (op : fs_op) : string :=
  match op with MakeDirs p => p | SaveFile p => p end.

(** [q] is at or below [root], component by component. *)
Definition below (root q : Pathlib.path) : Prop :=
  Pathlib.absolute q = Pathlib.absolute root
  /\ Pathlib.parts root `prefix_of` Pathlib.parts q.

End Transfer.

(* ===================================================================== *)
(** * Facts: key orders *)
(* ===================================================================== *)

Lemma string_ltb_leb (a b : string) : String.ltb a b = negb (String.leb b a).
Proof.
  unfold String.ltb, String.leb. rewrite (String.compare_antisym b a).
  by destruct (String.compare a b).
Qed.

Lemma string_leb_le (a b : string) : String.leb a b = true <-> String.le a b.
Proof. unfold String.le. by rewrite Is_true_true. Qed.

#[export] Instance str_PyOrdLaws : PyOrdLaws string.
Proof.
  split; simpl.
  - intros a b. apply String.eqb_eq.
  - intros a. rewrite string_ltb_leb. apply negb_false_iff, string_leb_le. done.
  - intros a b c. rewrite !string_ltb_leb, !negb_true_iff. intros Hba Hcb.
    apply not_true_iff_false. intros Hca%string_leb_le.
    destruct (total String.le a b) as [Hab|Hab'].
    + apply not_true_iff_false in Hcb. apply Hcb, string_leb_le. by etrans.
    + apply not_true_iff_false in Hba. by apply Hba, string_leb_le.
  - intros a b. rewrite !string_ltb_leb, !negb_false_iff.
    intros H1 H2. by apply String.leb_antisym.
Qed.

#[export] Instance num_PyOrdLaws : PyOrdLaws Z.
Proof.
  split; simpl.
  - intros a b. apply Z.eqb_eq.
  - intros a. apply Z.ltb_irrefl.
  - intros a b c. rewrite !Z.ltb_lt. lia.
  - intros a b. rewrite !Z.ltb_ge. lia.
Qed.

#[export] Instance bool_PyOrdLaws : PyOrdLaws bool.
Proof.
  split; simpl.
  - intros a b. apply Bool.eqb_true_iff.
  - by intros [].
  - by intros [] [] [].
  - by intros [] [].
Qed.

Section TupleLaws.
Context {A B : Type} `{PyOrd A} `{PyOrd B} `{!PyOrdLaws A} `{!PyOrdLaws B}.

Lemma py_eq_refl_true {K} `{PyOrd K} `{!PyOrdLaws K} (a : K) : py_eq a a = true.
Proof. by apply py_eq_true. Qed.

Lemma py_eq_false_ne {K} `{PyOrd K} `{!PyOrdLaws K} (a b : K) :
  py_eq a b = false -> a <> b.
Proof. intros Hf ->. by rewrite py_eq_refl_true in Hf. Qed.

#[export] Instance tuple_PyOrdLaws : PyOrdLaws (A * B).
Proof.
  split.
  - intros [a1 b1] [a2 b2]. simpl. rewrite andb_true_iff, !py_eq_true.
    split; [by intros [-> ->] | by intros [= -> ->]].
  - intros [a b]. simpl. rewrite py_eq_refl_true. apply py_lt_irrefl.
  - intros [a1 b1] [a2 b2] [a3 b3]. simpl.
    destruct (py_eq a1 a2) eqn:E12.
    + apply py_eq_true in E12 as ->.
      destruct (py_eq a2 a3) eqn:E23; [apply py_lt_trans|done].
    + destruct (py_eq a2 a3) eqn:E23.
      * apply py_eq_true in E23 as ->. by rewrite E12.
      * intros L12 L23. pose proof (py_lt_trans _ _ _ L12 L23) as L13.
        destruct (py_eq a1 a3) eqn:E13; [|done].
        apply py_eq_true in E13 as ->. by rewrite py_lt_irrefl in L13.
  - intros [a1 b1] [a2 b2]. simpl.
    destruct (py_eq a1 a2) eqn:E12.
    + apply py_eq_true in E12 as ->. rewrite py_eq_refl_true.
      intros L1 L2. f_equal. by apply py_lt_total.
    + destruct (py_eq a2 a1) eqn:E21.
      { apply py_eq_true in E21 as ->. by rewrite py_eq_refl_true in E12. }
      intros L1 L2. apply py_eq_false_ne in E12. destruct E12.
      by apply py_lt_total.
Qed.
End TupleLaws.

(* ===================================================================== *)
(** * Facts: the stable sort *)
(* ===================================================================== *)

Module PySortFacts.
Import PySort.

Section Facts.
Context {A K : Type} `{PyOrd K} `{!PyOrdLaws K} (key : A -> K).

Lemma insert_perm (x : A) (l : list A) : insert key x l ≡ₚ x :: l.
Proof.
  induction l as [|y l IH]; simpl; [done|].
  destruct (py_lt (key y) (key x)); [|done].
  rewrite IH. apply Permutation_swap.
Qed.

Lemma sort_perm (l : list A) : sort key l ≡ₚ l.
Proof.
  induction l as [|x l IH]; simpl; [done|].
  by rewrite insert_perm, IH.
Qed.

Lemma key_le_lt (x y : A) : py_lt (key x) (key y) = true -> key_le key x y.
Proof.
  unfold key_le. intros Hlt. destruct (py_lt (key y) (key x)) eqn:E; [|done].
  pose proof (py_lt_trans _ _ _ Hlt E) as Hxx. by rewrite py_lt_irrefl in Hxx.
Qed.

#[export] Instance key_le_trans : Transitive (key_le key).
Proof.
  intros x y z. unfold key_le. intros Hyx Hzy.
  destruct (py_lt (key z) (key x)) eqn:Hzx; [|done].
  destruct (py_lt (key x) (key y)) eqn:Hxy.
  - pose proof (py_lt_trans _ _ _ Hzx Hxy) as Hc. by rewrite Hzy in Hc.
  - pose proof (py_lt_total _ _ Hxy Hyx) as Heq. rewrite Heq in Hzx.
    by rewrite Hzy in Hzx.
Qed.

Lemma insert_hd (x a : A) (l : list A) :
  key_le key a x -> HdRel (key_le key) a l -> HdRel (key_le key) a (insert key x l).
Proof.
  intros Hax Hal. destruct l as [|y l]; simpl; [by constructor|].
  inversion_clear Hal. destruct (py_lt (key y) (key x)); by constructor.
Qed.

Lemma insert_sorted (x : A) (l : list A) :
  Sorted (key_le key) l -> Sorted (key_le key) (insert key x l).
Proof.
  induction 1 as [|y l Hl IH Hhd]; simpl; [by repeat constructor|].
  destruct (py_lt (key y) (key x)) eqn:E.
  - constructor; [done|]. apply insert_hd; [by apply key_le_lt|done].
  - constructor; [by constructor|]. by constructor.
Qed.

Lemma sort_sorted (l : list A) : Sorted (key_le key) (sort key l).
Proof. induction l; simpl; [constructor|by apply insert_sorted]. Qed.

Lemma sort_strongly_sorted (l : list A) : StronglySorted (key_le key) (sort key l).
Proof. apply Sorted_StronglySorted; [apply _|apply sort_sorted]. Qed.

(** Stability: the entries of any one key keep their order. *)
Lemma insert_stable (k : K) (x : A) (l : list A) :
  List.filter (fun y => py_eq (key y) k) (insert key x l)
  = List.filter (fun y => py_eq (key y) k) (x :: l).
Proof.
  induction l as [|y l IH]; [done|].
  simpl insert. destruct (py_lt (key y) (key x)) eqn:E; [|done].
  simpl in *. rewrite IH.
  destruct (py_eq (key y) k) eqn:Ey, (py_eq (key x) k) eqn:Ex; try done.
  apply (proj1 (py_eq_true _ _)) in Ey. apply (proj1 (py_eq_true _ _)) in Ex.
  rewrite Ey, Ex in E. by rewrite py_lt_irrefl in E.
Qed.

Lemma sort_stable (k : K) (l : list A) :
  List.filter (fun y => py_eq (key y) k) (sort key l)
  = List.filter (fun y => py_eq (key y) k) l.
Proof.
  induction l as [|x l IH]; [done|].
  simpl sort. rewrite insert_stable. simpl. by rewrite IH.
Qed.

End Facts.
End PySortFacts.

(* ===================================================================== *)
(** * Facts: the listings are the specified sort *)
(* ===================================================================== *)

Module ListingFacts.
Import SortSpec.

Lemma order_code_D (o : order) :
  bool_decide (order_code o = "D") = match o with Descending => true | Ascending => false end.
Proof. by destruct o. Qed.

(** A loop that stops at the first element it cannot handle. *)
Lemma mapM_guard_Some {A B} (ok : A -> bool) (f : A -> B) (l : list A) (r : list B) :
  mapM (fun x => if ok x then Some (f x) else None) l = Some r ->
  r = f <$> l /\ Forall (fun x => ok x = true) l.
Proof.
  intros Hm%mapM_Some_1.
  induction Hm as [|x y l k Hxy _ [IH1 IH2]]; [done|].
  destruct (ok x) eqn:Hx; [|done]. injection Hxy as <-.
  split; [by rewrite fmap_cons, IH1 | by constructor].
Qed.



Lemma scan_Some (items : list FS.node) (l : list entry) :
  App.scan items = Some l ->
  l = App.file_info <$> visible items
  /\ Forall (fun item => FS.node_statable item = true) (visible items).
Proof. apply mapM_guard_Some. Qed.

Lemma pathlib_scan_Some (items : list FS.node) (l : list entry) :
  PathlibMain.scan items = Some l ->
  l = PathlibMain.make_entry <$> visible items
  /\ Forall (fun item => FS.node_statable item = true) (visible items).
Proof. apply mapM_guard_Some. Qed.

(** The three listing functions compute [listed] on the scanned entries. *)
Lemma app_listing (fs : FS.filesystem) (dir : string) (c : column) (o : order) :
  App.get_directory_listing fs dir (sort_by_of c) (order_code o)
  = from_option (listed c Mixed o) [] (FS.listdir fs dir ≫= App.scan).
Proof.
  unfold App.get_directory_listing.
  destruct (FS.listdir fs dir ≫= App.scan) as [files|]; [|done].
  simpl. rewrite order_code_D. by destruct c, o.
Qed.

Lemma ospath_listing (fs : FS.filesystem) (dir : string) (c : column) (s : style)
    (o : order) :
  OsPathMain.get_directory_listing fs dir (sort_by_of c) (order_code o) (apache_style_of s)
  = from_option (listed c s o) [] (FS.listdir fs dir ≫= App.scan).
Proof.
  unfold OsPathMain.get_directory_listing, OsPathMain.scan.
  destruct (FS.listdir fs dir ≫= App.scan) as [files|]; [|done].
  simpl. rewrite order_code_D. by destruct c, s, o.
Qed.

Lemma pathlib_listing (fs : FS.filesystem) (dir : Pathlib.path) (c : column)
    (s : style) (o : order) :
  PathlibMain.directory_listing_data fs dir (sort_by_of c) (order_code o)
    (apache_style_of s)
  = Some (from_option (listed c s o) []
            (FS.listdir fs (Pathlib.str dir) ≫= PathlibMain.scan)).
Proof.
  unfold PathlibMain.directory_listing_data.
  destruct (FS.listdir fs (Pathlib.str dir) ≫= PathlibMain.scan) as [files|]; [|done].
  simpl. rewrite order_code_D. by destruct c, s, o.
Qed.

Lemma sorted_by_perm (c : column) (s : style) (l : list entry) : sorted_by c s l ≡ₚ l.
Proof. destruct c, s; apply PySortFacts.sort_perm. Qed.

Lemma eqb_negb (a b : bool) : Bool.eqb (negb a) (negb b) = Bool.eqb a b.
Proof. by destruct a, b. Qed.

Lemma filter_sort_tagged {V} `{PyOrd V} `{!PyOrdLaws V} (value : entry -> V)
    (e : entry) (l : list entry) :
  List.filter (fun x => Bool.eqb (is_directory x) (is_directory e)
                        && py_eq (value x) (value e))
    (PySort.sort (fun x => (negb (is_directory x), value x)) l)
  = List.filter (fun x => Bool.eqb (is_directory x) (is_directory e)
                          && py_eq (value x) (value e)) l.
Proof.
  pose proof (PySortFacts.sort_stable (fun x => (negb (is_directory x), value x))
                (negb (is_directory e), value e) l) as Hst.
  simpl in Hst.
  assert (Hext : forall x : entry,
             Bool.eqb (is_directory x) (is_directory e) && py_eq (value x) (value e)
             = Bool.eqb (negb (is_directory x)) (negb (is_directory e))
               && py_eq (value x) (value e))
    by (intros x; by rewrite eqb_negb).
  rewrite !(List.filter_ext _ _ Hext). exact Hst.
Qed.

(** Ties keep the order of the scan. *)
Lemma sorted_by_stable (c : column) (s : style) (e : entry) (l : list entry) :
  List.filter (fun x => same_key c s x e) (sorted_by c s l)
  = List.filter (fun x => same_key c s x e) l.
Proof.
  destruct c, s; unfold sorted_by, same_key; cbn [apache_style_of orb andb];
    first [ apply filter_sort_tagged; apply _
          | apply (PySortFacts.sort_stable _ _ l) ].
Qed.

Lemma filter_reverse_bool {A} (f : A -> bool) (l : list A) :
  List.filter f (reverse l) = reverse (List.filter f l).
Proof. unfold reverse. rewrite <- !rev_alt. apply List.filter_rev. Qed.

Lemma listed_reverse (c : column) (s : style) (l : list entry) :
  listed c s Descending l = reverse (listed c s Ascending l).
Proof. done. Qed.

(** ** Directories first *)

Lemma StronglySorted_lookup {A} (R : relation A) (l : list A) (i j : nat) (a b : A) :
  StronglySorted R l -> l !! i = Some a -> l !! j = Some b -> (i < j)%nat -> R a b.
Proof.
  intros Hs. revert i j. induction Hs as [|x l Hs IH Hall]; intros i j Hi Hj Hlt.
  - done.
  - destruct j as [|j]; [lia|]. destruct i as [|i]; simpl in *.
    + injection Hi as ->. rewrite Forall_forall in Hall.
      apply Hall. by eapply list_elem_of_lookup_2.
    + apply (IH i j); [done..|lia].
Qed.

Lemma StronglySorted_filter_bool {A} (R : relation A) (f : A -> bool) (l : list A) :
  StronglySorted R l -> StronglySorted R (List.filter f l).
Proof.
  induction 1 as [|x l Hs IH Hall]; simpl; [constructor|].
  destruct (f x); [|done]. constructor; [done|].
  rewrite Forall_forall in *. intros y Hy%list_elem_of_In%List.filter_In.
  apply Hall, list_elem_of_In, Hy.
Qed.

Section Tagged.
Context {V : Type} `{PyOrd V} `{!PyOrdLaws V} (value : entry -> V).

Let tagged (x : entry) : bool * V := (negb (is_directory x), value x).

Lemma tagged_le_dir (a b : entry) :
  PySort.key_le tagged a b -> is_directory b = true -> is_directory a = true.
Proof.
  unfold PySort.key_le, tagged. simpl. intros Hle Hb. rewrite Hb in Hle.
  by destruct (is_directory a).
Qed.

Lemma tagged_le_value (a b : entry) :
  PySort.key_le tagged a b -> is_directory a = is_directory b ->
  PySort.key_le value a b.
Proof.
  unfold PySort.key_le, tagged. simpl. intros Hle Heq. rewrite Heq in Hle.
  by destruct (is_directory b).
Qed.

Lemma tagged_dirs_before_files (l : list entry) :
  dirs_before_files (PySort.sort tagged l).
Proof.
  intros i j d f Hi Hj Hd Hf.
  destruct (decide (i < j)%nat) as [|Hge]; [done|].
  destruct (decide (i = j)) as [->|Hne]; [congruence|].
  pose proof (StronglySorted_lookup _ _ j i f d
                (PySortFacts.sort_strongly_sorted tagged l) Hj Hi) as Hle.
  apply tagged_le_dir in Hle; [congruence|lia|done].
Qed.

Lemma tagged_group_sorted (g : bool) (l : list entry) :
  Sorted (PySort.key_le value)
    (List.filter (fun x => Bool.eqb (is_directory x) g) (PySort.sort tagged l)).
Proof.
  apply StronglySorted_Sorted.
  pose proof (StronglySorted_filter_bool _ (fun x => Bool.eqb (is_directory x) g) _
                (PySortFacts.sort_strongly_sorted tagged l)) as Hs.
  revert Hs. generalize (PySort.sort tagged l). intros l'.
  induction l' as [|x l' IH]; simpl; [constructor|].
  destruct (Bool.eqb (is_directory x) g) eqn:Ex; [|done].
  intros Hs. apply StronglySorted_inv in Hs as [Hs Hall]. constructor; [by apply IH|].
  rewrite Forall_forall in *. intros y Hy. apply tagged_le_value; [by apply Hall|].
  apply list_elem_of_In, List.filter_In in Hy as [_ Ey].
  apply Bool.eqb_prop in Ex, Ey. congruence.
Qed.
End Tagged.

Lemma dirs_first_head (l : list entry) : dirs_before_files l -> starts_with_dir l.
Proof.
  intros Hdf d Hd Hdir. destruct l as [|h l]; [by apply not_elem_of_nil in Hd|].
  exists h. split; [done|]. destruct (is_directory h) eqn:Eh; [done|].
  apply list_elem_of_lookup in Hd as [i Hi].
  pose proof (Hdf i 0%nat d h Hi eq_refl Hdir Eh). lia.
Qed.

Lemma filter_bool_ext_negb (l : list entry) :
  List.filter (fun x => Bool.eqb (is_directory x) false) l
  = List.filter (fun x => negb (is_directory x)) l.
Proof. apply List.filter_ext. intros x. by destruct (is_directory x). Qed.

Lemma filter_bool_ext_id (l : list entry) :
  List.filter (fun x => Bool.eqb (is_directory x) true) l = List.filter is_directory l.
Proof. apply List.filter_ext. intros x. by destruct (is_directory x). Qed.

Lemma listed_directories_first (c : column) (l : list entry) :
  directories_first c (listed c DirectoriesFirst Ascending l).
Proof.
  assert (Hdf : dirs_before_files (listed c DirectoriesFirst Ascending l))
    by (destruct c; apply tagged_dirs_before_files).
  repeat split.
  - done.
  - rewrite <- filter_bool_ext_id. destruct c; apply tagged_group_sorted.
  - rewrite <- filter_bool_ext_negb. destruct c; apply tagged_group_sorted.
  - by apply dirs_first_head.
Qed.

Lemma directories_first_nil (c : column) : directories_first c [].
Proof.
  repeat split; try constructor.
  - intros i j d f Hi. by rewrite lookup_nil in Hi.
  - intros d Hd. by apply not_elem_of_nil in Hd.
Qed.

(** ** The order of the key *)

Lemma StronglySorted_impl {A} (R R' : relation A) (l : list A) :
  (forall a b, R a b -> R' a b) -> StronglySorted R l -> StronglySorted R' l.
Proof.
  intros HR. induction 1 as [|x l Hs IH Hall]; constructor; [done|].
  eapply Forall_impl; [exact Hall|]. intros y. apply HR.
Qed.

Lemma sorted_by_key_sorted (c : column) (s : style) (l : list entry) :
  StronglySorted (key_le c s) (sorted_by c s l).
Proof.
  destruct s.
  - destruct c; simpl;
      (eapply StronglySorted_impl; [|apply PySortFacts.sort_strongly_sorted; apply _]);
      intros a b Hab;
      (split; [exact (tagged_le_dir _ a b Hab) | exact (tagged_le_value _ a b Hab)]).
  - destruct c; simpl; apply PySortFacts.sort_strongly_sorted; apply _.
Qed.

(** What all three listings are: the stable sort of the scan, and its
    reversal. *)
Lemma listed_stable_sort_reversed (c : column) (s : style) (scanned : list entry) :
  stable_sort_reversed c s scanned (listed c s Ascending scanned)
    (listed c s Descending scanned).
Proof.
  split; [apply sorted_by_key_sorted|]. split; [apply sorted_by_perm|].
  split; [intros e; apply sorted_by_stable|]. split; [done|].
  intros e. cbn [listed]. by rewrite filter_reverse_bool, sorted_by_stable.
Qed.

End ListingFacts.

(* ===================================================================== *)
(** * The listing order (claims C5 and C7) *)
(* ===================================================================== *)

Section ListingOrder.
Import SortSpec ListingFacts.

(** C7. In every variant, for every directory and every sort key and style:
    the ascending listing is the stable sort of the scanned entries by that
    key (it is in the order of the key, it holds exactly the scanned entries,
    and entries with one and the same key keep the order of the scan); the
    descending listing is the ascending listing reversed as a whole, so that
    it shows the entries of a tie in the order of the scan exactly reversed.
    For a sort key outside the four columns, too, the descending listing is
    the ascending one reversed. *)
Theorem descending_is_reversed_ascending :
  forall (fs : FS.filesystem) (dir : string) (p : Pathlib.path),
    (forall (sort_by : string) (apache_style : bool),
        App.get_directory_listing fs dir sort_by "D"
        = reverse (App.get_directory_listing fs dir sort_by "A")
        /\ OsPathMain.get_directory_listing fs dir sort_by "D" apache_style
           = reverse (OsPathMain.get_directory_listing fs dir sort_by "A" apache_style)
        /\ PathlibMain.directory_listing_data fs p sort_by "D" apache_style
           = reverse <$> PathlibMain.directory_listing_data fs p sort_by "A" apache_style)
    /\ forall (c : column) (s : style),
         stable_sort_reversed c Mixed
           (default [] (FS.listdir fs dir ≫= App.scan))
           (App.get_directory_listing fs dir (sort_by_of c) "A")
           (App.get_directory_listing fs dir (sort_by_of c) "D")
         /\ stable_sort_reversed c s
              (default [] (FS.listdir fs dir ≫= OsPathMain.scan))
              (OsPathMain.get_directory_listing fs dir (sort_by_of c) "A"
                 (apache_style_of s))
              (OsPathMain.get_directory_listing fs dir (sort_by_of c) "D"
                 (apache_style_of s))
         /\ exists asc desc : list entry,
              PathlibMain.directory_listing_data fs p (sort_by_of c) "A"
                (apache_style_of s) = Some asc
              /\ PathlibMain.directory_listing_data fs p (sort_by_of c) "D"
                   (apache_style_of s) = Some desc
              /\ stable_sort_reversed c s
                   (default [] (FS.listdir fs (Pathlib.str p) ≫= PathlibMain.scan))
                   asc desc.
Proof.
  intros fs dir p. split.
  - intros sort_by apache_style. repeat split.
    + unfold App.get_directory_listing. by destruct (_ ≫= _).
    + unfold OsPathMain.get_directory_listing. by destruct (_ ≫= _).
    + unfold PathlibMain.directory_listing_data.
      destruct (_ ≫= _); [|done]. simpl.
      by destruct (PathlibMain.sort_entries sort_by apache_style _).
  - intros c s.
    assert (Hnil : forall s', stable_sort_reversed c s' [] [] [])
      by (intros s'; repeat split; constructor).
    split; [|split].
    + rewrite (app_listing fs dir c Ascending
               : App.get_directory_listing fs dir (sort_by_of c) "A" = _).
      rewrite (app_listing fs dir c Descending
               : App.get_directory_listing fs dir (sort_by_of c) "D" = _).
      destruct (FS.listdir fs dir ≫= App.scan) as [files|]; cbn [from_option default];
        [apply listed_stable_sort_reversed|apply Hnil].
    + rewrite (ospath_listing fs dir c s Ascending
               : OsPathMain.get_directory_listing fs dir _ "A" _ = _).
      rewrite (ospath_listing fs dir c s Descending
               : OsPathMain.get_directory_listing fs dir _ "D" _ = _).
      unfold OsPathMain.scan.
      destruct (FS.listdir fs dir ≫= App.scan) as [files|]; cbn [from_option default];
        [apply listed_stable_sort_reversed|apply Hnil].
    + eexists _, _.
      rewrite (pathlib_listing fs p c s Ascending
               : PathlibMain.directory_listing_data fs p _ "A" _ = _).
      rewrite (pathlib_listing fs p c s Descending
               : PathlibMain.directory_listing_data fs p _ "D" _ = _).
      split; [done|]. split; [done|].
      destruct (FS.listdir fs (Pathlib.str p) ≫= PathlibMain.scan) as [files|];
        cbn [from_option default]; [apply listed_stable_sort_reversed|apply Hnil].
Qed.

(** C5 at the failing input.  The served root [/srv/share] shows the file
    [a.txt] and the directory [sub].  Under the DirectoriesFirst style the
    ascending listing by name has the directory first, although its name is
    the greater; asked for the descending order, both variants that know the
    style reverse the whole list and put the file first. *)
Theorem directories_not_first_when_descending :
  OsPathMain.get_directory_listing Samples.disk "/srv/share" "name" "A" false
  = [ App.file_info (FS.Dir "sub" 1700000110 true [FS.File "b.txt" 2048 1700000120 true]);
      App.file_info (FS.File "a.txt" 512 1700000100 true) ]
  /\ OsPathMain.get_directory_listing Samples.disk "/srv/share" "name" "D" false
     = [ App.file_info (FS.File "a.txt" 512 1700000100 true);
         App.file_info (FS.Dir "sub" 1700000110 true [FS.File "b.txt" 2048 1700000120 true]) ]
  /\ ~ dirs_before_files
       (OsPathMain.get_directory_listing Samples.disk "/srv/share" "name" "D" false)
  /\ PathlibMain.directory_listing_data Samples.disk Samples.root "name" "D" false
     = Some [ PathlibMain.make_entry (FS.File "a.txt" 512 1700000100 true);
              PathlibMain.make_entry
                (FS.Dir "sub" 1700000110 true [FS.File "b.txt" 2048 1700000120 true]) ].
Proof.
  assert (E : OsPathMain.get_directory_listing Samples.disk "/srv/share" "name" "D" false
              = [ App.file_info (FS.File "a.txt" 512 1700000100 true);
                  App.file_info
                    (FS.Dir "sub" 1700000110 true
                       [FS.File "b.txt" 2048 1700000120 true]) ])
    by (vm_compute; reflexivity).
  split; [vm_compute; reflexivity|].
  split; [exact E|]. split; [|vm_compute; reflexivity].
  rewrite E. intros Hdf.
  pose proof (Hdf 1%nat 0%nat _ _ eq_refl eq_refl eq_refl eq_refl). lia.
Qed.

(** X21. Under the DirectoriesFirst style, for every directory and every
    sort column, the ascending listing has every directory before every file,
    each of the two groups in the order of the column's key, and so starts
    with a directory whenever one is listed, whatever its name. *)
Theorem ascending_lists_directories_first :
  forall (fs : FS.filesystem) (dir : string) (p : Pathlib.path) (c : column),
    directories_first c
      (OsPathMain.get_directory_listing fs dir (sort_by_of c) "A" false)
    /\ exists asc : list entry,
         PathlibMain.directory_listing_data fs p (sort_by_of c) "A" false = Some asc
         /\ directories_first c asc.
Proof.
  intros fs dir p c. split.
  - rewrite (ospath_listing fs dir c DirectoriesFirst Ascending
             : OsPathMain.get_directory_listing fs dir _ "A" false = _).
    destruct (FS.listdir fs dir ≫= App.scan) as [files|]; cbn [from_option].
    + apply listed_directories_first.
    + apply directories_first_nil.
  - eexists.
    rewrite (pathlib_listing fs p c DirectoriesFirst Ascending
             : PathlibMain.directory_listing_data fs p _ "A" false = _).
    split; [done|].
    destruct (FS.listdir fs (Pathlib.str p) ≫= PathlibMain.scan) as [files|];
      cbn [from_option].
    + apply listed_directories_first.
    + apply directories_first_nil.
Qed.

End ListingOrder.

(* ===================================================================== *)
(** * Sort links and sort parameters (claims C8 and C9) *)
(* ===================================================================== *)

Section SortParameters.
Import SortSpec.

(** C8, as the claim has it, fails, in the os.path variant configured with
    the DirectoriesFirst style and serving [/srv/share].  The request
    [?C=N;O=x] is answered with the ascending listing by name, yet the link of
    the active column Name leads to the ascending order again, not to the
    opposite one; the request [?C=X] is sorted by name, yet the link of Name
    does not toggle either.  The request [?C=M;O=A;apache=true] is answered
    in the Mixed style, yet the link of the inactive column Name leads to the
    ascending order: the links read the configured style ([sort_url] of the
    pathlib variant does the same). *)
Lemma sort_link_misses_fallback_and_override :
  (OsPathMain.listing_view false Samples.disk "/srv/share" "C=N;O=x"
   = Listing "name" "x" "N"
       (OsPathMain.get_directory_listing Samples.disk "/srv/share" "name" "A" false)
   /\ OsPathMain.get_sort_url false "/" "N" "N" "x" = "?C=N;O=A"
   /\ OsPathMain.get_sort_url false "/" "N" "N" "x"
      <> sort_link Name (next_order DirectoriesFirst Name Ascending Name))
  /\ (OsPathMain.listing_view false Samples.disk "/srv/share" "C=X"
      = Listing "name" "A" "X"
          (OsPathMain.get_directory_listing Samples.disk "/srv/share" "name" "A" false)
      /\ OsPathMain.get_sort_url false "/" "N" "X" "A" = "?C=N;O=A"
      /\ OsPathMain.get_sort_url false "/" "N" "X" "A"
         <> sort_link Name (next_order DirectoriesFirst Name Ascending Name))
  /\ (OsPathMain.listing_view false Samples.disk "/srv/share" "C=M;O=A;apache=true"
      = Listing "modified" "A" "M"
          (OsPathMain.get_directory_listing Samples.disk "/srv/share" "modified" "A" true)
      /\ OsPathMain.get_sort_url false "/" "N" "M" "A" = "?C=N;O=A"
      /\ PathlibMain.sort_url false "N" "M" "A" = "?C=N;O=A"
      /\ OsPathMain.get_sort_url false "/" "N" "M" "A"
         <> sort_link Name (next_order Mixed Modified Ascending Name)).
Proof. repeat split; try (vm_compute; reflexivity); vm_compute; discriminate. Qed.

(** C8, amended. For every sort state whose column and order are spelled as
    the links spell them (N, M, S or D, and A or D) and every target column,
    the link of the target column carries the opposite order when the target
    is the active column, and otherwise the target's default order:
    ascending, except descending for Name when the configured style, the one
    the links read, is Mixed (src/app.py knows the Mixed style only).
    Following the link of the active column twice leads back to the order
    one started from. *)
Theorem sort_link_toggles_or_resets :
  forall (configured : style) (active target : column) (o : order)
         (request_path : string),
    OsPathMain.get_sort_url (apache_style_of configured) request_path
      (column_code target) (column_code active) (order_code o)
    = sort_link target (next_order configured active o target)
    /\ PathlibMain.sort_url (apache_style_of configured)
         (column_code target) (column_code active) (order_code o)
       = sort_link target (next_order configured active o target)
    /\ App.get_sort_url request_path
         (column_code target) (column_code active) (order_code o)
       = sort_link target (next_order Mixed active o target)
    /\ PathlibMain.sort_url (apache_style_of configured)
         (column_code active) (column_code active)
         (order_code (next_order configured active o active))
       = sort_link active o
    /\ OsPathMain.get_sort_url (apache_style_of configured) request_path
         (column_code active) (column_code active)
         (order_code (next_order configured active o active))
       = sort_link active o
    /\ App.get_sort_url request_path
         (column_code active) (column_code active)
         (order_code (next_order Mixed active o active))
       = sort_link active o.
Proof.
  intros configured active target o request_path.
  by destruct configured, active, target, o.
Qed.

Lemma sort_map_unknown (c : string) :
  c ∉ ["N"; "M"; "S"; "D"] -> App.sort_map !! c = None.
Proof.
  intros Hc. unfold App.sort_map.
  rewrite !lookup_insert_ne; [apply lookup_empty|..]; intros <-; apply Hc; set_solver.
Qed.

Lemma sort_map_known (c : string) :
  exists k : column, default "name" (App.sort_map !! c) = sort_by_of k.
Proof.
  unfold App.sort_map.
  destruct (decide (c = "N")) as [->|]; [by exists Name|].
  destruct (decide (c = "M")) as [->|]; [by exists Modified|].
  destruct (decide (c = "S")) as [->|]; [by exists Size|].
  destruct (decide (c = "D")) as [->|]; [by exists Description|].
  exists Name. by rewrite !lookup_insert_ne, lookup_empty.
Qed.

Lemma app_parse_params_empty : App.parse_params "" = ∅.
Proof. reflexivity. Qed.

Lemma app_params_guard (query_string : string) :
  (if PyStr.nonempty query_string then App.parse_params query_string else ∅)
  = App.parse_params query_string.
Proof. by destruct query_string. Qed.

Lemma order_not_D (o : string) : o <> "D" -> bool_decide (o = "D") = false.
Proof. intros. by apply bool_decide_eq_false_2. Qed.

(** C9. For every directory and every query string, each variant answers
    with a listing (never an error); the listing is the one
    [get_directory_listing] (or [directory_listing_data]) computes for the
    sort key and order of the request; a column parameter [C] outside
    N, M, S, D (or none) sorts by name; and an order parameter [O] other than
    exactly "D" (unknown, empty or absent) gives the ascending listing. *)
Theorem invalid_sort_parameters_fall_back :
  forall (fs : FS.filesystem) (dir : string) (p : Pathlib.path)
         (configured : bool) (query_string : string),
    (exists (sort_by : string) (files : list entry),
        let c := default "N" (App.parse_params query_string !! "C") in
        let o := default "A" (App.parse_params query_string !! "O") in
        App.listing_view fs dir query_string = Listing sort_by o c files
        /\ files = App.get_directory_listing fs dir sort_by o
        /\ (c ∉ ["N"; "M"; "S"; "D"] -> sort_by = "name")
        /\ (o <> "D" -> files = App.get_directory_listing fs dir sort_by "A"))
    /\ (exists (sort_by : string) (apache_style : bool) (files : list entry),
        let c := default "N" (OsPathMain.parse_params query_string !! "C") in
        let o := default "A" (OsPathMain.parse_params query_string !! "O") in
        OsPathMain.listing_view configured fs dir query_string
        = Listing sort_by o c files
        /\ files = OsPathMain.get_directory_listing fs dir sort_by o apache_style
        /\ (c ∉ ["N"; "M"; "S"; "D"] -> sort_by = "name")
        /\ (o <> "D" ->
            files = OsPathMain.get_directory_listing fs dir sort_by "A" apache_style))
    /\ (exists (sort_by : string) (apache_style : bool) (files : list entry),
        let c := default "N" (PathlibMain.parse_params query_string !! "C") in
        let o := default "A" (PathlibMain.parse_params query_string !! "O") in
        PathlibMain.listing_view configured fs p query_string
        = Listing sort_by o c files
        /\ PathlibMain.directory_listing_data fs p sort_by o apache_style = Some files
        /\ (c ∉ ["N"; "M"; "S"; "D"] -> sort_by = "name")
        /\ (o <> "D" ->
            PathlibMain.directory_listing_data fs p sort_by "A" apache_style
            = Some files)).
Proof.
  intros fs dir p configured query_string. repeat split.
  - eexists _, _. cbv zeta. unfold App.listing_view.
    rewrite app_params_guard. split; [reflexivity|]. split; [reflexivity|]. split.
    + intros Hc. by rewrite (sort_map_unknown _ Hc).
    + intros Ho. unfold App.get_directory_listing.
      by rewrite (order_not_D _ Ho).
  - eexists _, _, _. cbv zeta. unfold OsPathMain.listing_view, OsPathMain.parse_params.
    rewrite app_params_guard. split; [reflexivity|]. split; [reflexivity|]. split.
    + intros Hc. unfold OsPathMain.sort_map. by rewrite (sort_map_unknown _ Hc).
    + intros Ho. unfold OsPathMain.get_directory_listing.
      by rewrite (order_not_D _ Ho).
  - cbv zeta. unfold PathlibMain.listing_view.
    set (c := default "N" (PathlibMain.parse_params query_string !! "C")).
    set (o := default "A" (PathlibMain.parse_params query_string !! "O")).
    set (st := if bool_decide (_ ∈ ["true"; "1"; "yes"]) then _ else _).
    destruct (sort_map_known c) as [k Hk].
    change PathlibMain.sort_map with App.sort_map. rewrite Hk.
    assert (Hsome : exists files,
               PathlibMain.directory_listing_data fs p (sort_by_of k) o st = Some files).
    { unfold PathlibMain.directory_listing_data.
      destruct (FS.listdir fs (Pathlib.str p) ≫= PathlibMain.scan); [|by eexists].
      destruct k; simpl; by eexists. }
    destruct Hsome as [files Hfiles]. exists (sort_by_of k), st, files.
    rewrite Hfiles. split; [done|]. split; [done|]. split.
    + intros Hc. rewrite <- Hk. by rewrite (sort_map_unknown _ Hc).
    + intros Ho. rewrite <- Hfiles. unfold PathlibMain.directory_listing_data.
      by rewrite (order_not_D _ Ho).
Qed.

End SortParameters.

(* ===================================================================== *)
(** * The two query parsers (claim C10) *)
(* ===================================================================== *)

Module QueryFacts.
Import PyStr Query.

Lemma parse_param_fields (key : string) (segments : list string)
    (params : gmap string string) :
  foldl App.parse_param params segments !! key
  = foldl (keep_last key) (params !! key) (flat_map field_of segments).
Proof.
  revert params. induction segments as [|seg segments IH]; intros params; [done|].
  simpl. rewrite IH. unfold App.parse_param, field_of.
  destruct (contains "=" seg); [|done].
  destruct (partition "=" seg) as [[k b] v]. simpl. f_equal.
  unfold keep_last. simpl. rewrite lookup_insert. by repeat case_decide.
Qed.

Lemma app_lookup (key query_string : string) :
  App.parse_params query_string !! key
  = foldl (keep_last key) None (fields query_string).
Proof. unfold App.parse_params. by rewrite parse_param_fields, lookup_empty. Qed.

(** Characters that are not there stay away. *)
Lemma replace_absent (a b : ascii) (s : string) :
  contains a s = false -> replace a b s = s.
Proof.
  induction s as [|x s IH]; simpl; [done|].
  unfold ascii_eqb. case_bool_decide; simpl; [done|]. intros Hs. by rewrite IH.
Qed.

Lemma unquote_absent (s : string) :
  contains "%" s = false -> UrlParse.unquote s = s.
Proof.
  induction s as [|x s IH]; simpl; [done|].
  unfold ascii_eqb. case_bool_decide; simpl; [done|]. intros Hs. by rewrite IH.
Qed.

Lemma contains_replace (c a b : ascii) (s : string) :
  c <> b -> contains c s = false -> contains c (replace a b s) = false.
Proof.
  intros Hcb. induction s as [|x s IH]; simpl; [done|].
  unfold ascii_eqb. intros [Hx Hs]%orb_false_elim. rewrite (IH Hs), orb_false_r.
  apply bool_decide_eq_false in Hx.
  destruct (bool_decide (x = a)); apply bool_decide_eq_false; congruence.
Qed.

Lemma contains_split (c sep : ascii) (s : string) :
  contains c s = false -> Forall (fun seg => contains c seg = false) (split sep s).
Proof.
  induction s as [|x s IH]; simpl; [by repeat constructor|].
  intros [Hx Hs]%orb_false_elim. specialize (IH Hs).
  destruct (ascii_eqb x sep); [by constructor|].
  destruct (split sep s) as [|h t]; [by repeat constructor; simpl; rewrite Hx|].
  inversion_clear IH. constructor; [simpl; by rewrite Hx|done].
Qed.

Lemma contains_partition (c sep : ascii) (s : string) :
  contains c s = false ->
  contains c (partition sep s).1.1 = false /\ contains c (partition sep s).2 = false.
Proof.
  induction s as [|x s IH]; simpl; [done|].
  intros [Hx Hs]%orb_false_elim. destruct (ascii_eqb x sep); [done|].
  destruct (IH Hs) as [H1 H2]. destruct (partition sep s) as [[h b] t]. simpl in *.
  by rewrite Hx.
Qed.

Lemma partition_no_sep (sep : ascii) (s : string) :
  contains sep s = false -> (partition sep s).2 = EmptyString.
Proof.
  induction s as [|x s IH]; simpl; [done|].
  unfold ascii_eqb. case_bool_decide; simpl; [done|]. intros Hs.
  specialize (IH Hs). by destruct (partition sep s) as [[h b] t].
Qed.

(** On a plain segment [parse_qsl] keeps the field unless its value is blank. *)
Lemma parse_qsl_field_plain (seg : string) :
  contains "%" seg = false -> contains "+" seg = false ->
  UrlParse.parse_qsl_field seg = List.filter nonblank (field_of seg).
Proof.
  intros Hp Hq. unfold UrlParse.parse_qsl_field, field_of.
  destruct (contains_partition "%" "=" seg Hp) as [Hp1 Hp2].
  destruct (contains_partition "+" "=" seg Hq) as [Hq1 Hq2].
  pose proof (partition_no_sep "=" seg) as Hno.
  destruct (partition "=" seg) as [[k b] v] eqn:E. simpl in *.
  rewrite !(replace_absent "+" " ") by done. rewrite !unquote_absent by done.
  destruct (contains "=" seg) eqn:Ec.
  - destruct seg; [done|]. simpl. unfold nonblank. simpl. by destruct (nonempty v).
  - rewrite Hno by done. by destruct seg.
Qed.

Lemma parse_qsl_plain (query_string : string) :
  plain query_string ->
  UrlParse.parse_qsl (replace ";" "&" query_string)
  = List.filter nonblank (fields query_string).
Proof.
  intros [Hp Hq]. unfold UrlParse.parse_qsl, fields.
  set (qs := replace ";" "&" query_string).
  assert (Hall : Forall (fun seg => contains "%" seg = false /\ contains "+" seg = false)
                   (split "&" qs)).
  { apply Forall_and. split; apply contains_split, contains_replace; done. }
  assert (Hflat : flat_map UrlParse.parse_qsl_field (split "&" qs)
                  = List.filter nonblank (flat_map field_of (split "&" qs))).
  { induction Hall as [|seg segs [H1 H2] _ IH]; [done|].
    simpl. by rewrite List.filter_app, IH, parse_qsl_field_plain. }
  rewrite <- Hflat. destruct qs; [|done]. done.
Qed.

Lemma parse_qs_lookup (key : string) (kvs : list (string * string))
    (parsed : gmap string (list string)) :
  foldl UrlParse.parse_qs_add parsed kvs !! key
  = match parsed !! key, values_of key kvs with
    | Some ws, vs => Some (ws ++ vs)
    | None, [] => None
    | None, vs => Some vs
    end.
Proof.
  revert parsed. induction kvs as [|[k v] kvs IH]; intros parsed.
  { simpl. destruct (parsed !! key); [by rewrite app_nil_r|done]. }
  simpl foldl. rewrite IH. unfold UrlParse.parse_qs_add, values_of. simpl.
  case_bool_decide as Hk; simpl.
  - subst k. destruct (parsed !! key) as [ws|]; rewrite lookup_insert_eq.
    + by rewrite <- app_assoc.
    + done.
  - destruct (parsed !! k); by rewrite lookup_insert_ne.
Qed.

Lemma pathlib_lookup (key query_string : string) :
  plain query_string ->
  PathlibMain.parse_params query_string !! key
  = head (values_of key (List.filter nonblank (fields query_string))).
Proof.
  intros Hplain. unfold PathlibMain.parse_params, UrlParse.parse_qs.
  rewrite lookup_omap, parse_qs_lookup, lookup_empty, parse_qsl_plain by done.
  by destruct (values_of key _).
Qed.

(** With one non-empty value for the key, first and last are the same. *)
Lemma keep_last_single (key v : string) (kvs : list (string * string))
    (acc : option string) :
  (forall w, (key, w) ∈ kvs -> w = v) ->
  foldl (keep_last key) acc kvs
  = if existsb (fun kv => bool_decide (kv.1 = key)) kvs then Some v else acc.
Proof.
  revert acc. induction kvs as [|[k w] kvs IH]; intros acc Hall; [done|].
  simpl. rewrite IH by (intros; apply Hall; by right).
  unfold keep_last. simpl. case_bool_decide as Hk; case_decide; try done; simpl.
  subst k. rewrite (Hall w) by left. by destruct (existsb _ kvs).
Qed.

Lemma first_single (key v : string) (kvs : list (string * string)) :
  v <> EmptyString ->
  (forall w, (key, w) ∈ kvs -> w = v) ->
  head (values_of key (List.filter nonblank kvs))
  = if existsb (fun kv => bool_decide (kv.1 = key)) kvs then Some v else None.
Proof.
  intros Hv. induction kvs as [|[k w] kvs IH]; intros Hall; [done|].
  specialize (IH ltac:(intros; apply Hall; by right)).
  simpl. case_bool_decide as Hk; simpl.
  - subst k. rewrite (Hall w) by left. unfold nonblank at 1. simpl.
    destruct v; [done|]. simpl. unfold values_of. simpl.
    by rewrite bool_decide_eq_true_2.
  - unfold values_of in *. destruct (nonblank (k, w)); simpl; [|done].
    by rewrite bool_decide_eq_false_2.
Qed.

End QueryFacts.

Section QueryParsers.
Import Query QueryFacts.

(** C10, as the claim has it, fails: a repeated key, a blank value and a
    percent escape each make the two parsers disagree on [C]. *)
Lemma parsers_disagree :
  (App.parse_params "C=M&C=S" !! "C" = Some "S"
   /\ PathlibMain.parse_params "C=M&C=S" !! "C" = Some "M")
  /\ (App.parse_params "C=;O=D" !! "C" = Some EmptyString
      /\ PathlibMain.parse_params "C=;O=D" !! "C" = None)
  /\ (App.parse_params "C=%4D" !! "C" = Some "%4D"
      /\ PathlibMain.parse_params "C=%4D" !! "C" = Some "M").
Proof. repeat split; vm_compute; reflexivity. Qed.

(** C10, amended. For every query string without a percent escape or a plus
    sign, and every key (so for [C], [O] and [apache]) whose occurrences in
    the query string all carry one and the same non-empty value, the
    hand-written parser and the [parse_qs]-based parser give the key the same
    value, or both none. *)
Theorem parsers_agree_on_plain_single_valued_keys :
  forall (query_string key : string),
    plain query_string ->
    single_valued key query_string ->
    App.parse_params query_string !! key = PathlibMain.parse_params query_string !! key
    /\ OsPathMain.parse_params query_string !! key
       = PathlibMain.parse_params query_string !! key.
Proof.
  intros query_string key Hplain (v & Hv & Hall).
  assert (E : App.parse_params query_string !! key
              = PathlibMain.parse_params query_string !! key).
  { rewrite app_lookup, pathlib_lookup by done.
    by rewrite (keep_last_single key v), (first_single key v). }
  by split.
Qed.

Lemma parsers_agree_witness :
  plain "C=M;O=D&apache=1" /\ single_valued "C" "C=M;O=D&apache=1"
  /\ App.parse_params "C=M;O=D&apache=1" !! "C"
     = PathlibMain.parse_params "C=M;O=D&apache=1" !! "C".
Proof.
  assert (Hplain : plain "C=M;O=D&apache=1") by (split; reflexivity).
  assert (Hsingle : single_valued "C" "C=M;O=D&apache=1").
  { exists "M". split; [done|]. intros w Hw. vm_compute in Hw.
    repeat (apply elem_of_cons in Hw as [Hw|Hw]; [congruence|]).
    by apply not_elem_of_nil in Hw. }
  split; [exact Hplain|]. split; [exact Hsingle|].
  exact (proj1 (parsers_agree_on_plain_single_valued_keys _ _ Hplain Hsingle)).
Defined.

End QueryParsers.

(* ===================================================================== *)
(** * The size column (claim C6) *)
(* ===================================================================== *)

Module SizeFacts.
Import PyStr PyFloat.

Lemma of_int_small (n : Z) : 0 <= n < 2 ^ 53 -> of_int n = Dy n 0.
Proof.
  intros [Hn Hlt]. unfold of_int.
  destruct (Z.leb_spec (Z.log2 n + 1) 53) as [|Hbits]; [done|].
  assert (0 < n) by (destruct (decide (n = 0)) as [->|]; [simpl in Hbits|]; lia).
  apply Z.log2_lt_pow2 in Hlt; lia.
Qed.

Lemma of_int_dexp (n : Z) : dexp (of_int n) = 0.
Proof. unfold of_int. by destruct (Z.log2 n + 1 <=? 53). Qed.

Lemma round_half_even_ge (n d : Z) : n / d <= round_half_even n d.
Proof.
  unfold round_half_even.
  destruct (2 * (n mod d) <? d), (d <? 2 * (n mod d)), (Z.even (n / d)); lia.
Qed.

Lemma of_int_large (n : Z) : 2 ^ 53 <= n -> 2 ^ 53 <= dnum (of_int n).
Proof.
  intros Hn. assert (Hpos : 0 < n) by lia.
  pose proof (proj1 (Z.log2_le_pow2 n 53 Hpos) Hn) as Hlog.
  unfold of_int. destruct (Z.leb_spec (Z.log2 n + 1) 53) as [|_]; [lia|]. simpl.
  set (sh := Z.log2 n + 1 - 53). assert (Hsh : 1 <= sh) by lia.
  pose proof (Z.log2_spec n Hpos) as [Hlow _].
  replace (Z.log2 n) with (52 + sh) in Hlow by lia.
  rewrite Z.pow_add_r in Hlow by lia.
  assert (H2 : 2 ^ 1 <= 2 ^ sh) by (apply Z.pow_le_mono_r; lia).
  assert (Hd : 0 < 2 ^ sh) by lia.
  pose proof (round_half_even_ge n (2 ^ sh)) as Hr.
  assert (Hq : 2 ^ 52 <= n / 2 ^ sh) by (apply Z.div_le_lower_bound; lia).
  change (2 ^ 53) with (2 ^ 52 * 2 ^ 1). nia.
Qed.

Lemma of_int_lt (n c : Z) :
  0 <= n -> c <= 2 ^ 53 -> (dnum (of_int n) <? c) = (n <? c).
Proof.
  intros Hn Hc. destruct (Z.lt_ge_cases n (2 ^ 53)) as [Hlt|Hge].
  - by rewrite of_int_small.
  - pose proof (of_int_large n Hge).
    destruct (Z.ltb_spec (dnum (of_int n)) c), (Z.ltb_spec n c); lia.
Qed.

Lemma lt_int_div_pow2 (n k c : Z) :
  0 <= n -> c * 2 ^ k <= 2 ^ 53 ->
  lt_int (div_pow2 (of_int n) k) c = (n <? c * 2 ^ k).
Proof.
  intros Hn Hc. unfold lt_int, div_pow2. simpl. rewrite of_int_dexp.
  by apply of_int_lt.
Qed.

Lemma div_pow2_twice (x : dyadic) (a b : Z) :
  div_pow2 (div_pow2 x a) b = div_pow2 x (a + b).
Proof. unfold div_pow2. simpl. f_equal. lia. Qed.

(** The two formatters are one function. *)
Lemma format_size_same (size : Z) :
  0 <= size -> PathlibMain.format_size size = App.format_file_size size.
Proof.
  intros Hsize. unfold PathlibMain.format_size, App.format_file_size.
  destruct (size =? 0); [done|]. destruct (size <? 1024); [done|].
  rewrite !div_pow2_twice.
  rewrite (lt_int_div_pow2 size 10 1024) by (done || (vm_compute; discriminate)).
  rewrite (lt_int_div_pow2 size (10 + 10) 1024) by (done || (vm_compute; discriminate)).
  change (1024 * 2 ^ 10) with (1024 * 1024).
  change (1024 * 2 ^ (10 + 10)) with (1024 * 1024 * 1024).
  change (10 + 10 + 10) with 30. change (10 + 10) with 20.
  destruct (Z.ltb_spec size (1024 * 1024)), (Z.ltb_spec size (1024 * 1024 * 1024));
    try done; lia.
Qed.

(** ** The formatted text against the specification's arithmetic *)

Lemma str_of_Z_digits (n : Z) : 0 <= n -> str_of_Z n = SizeSpec.digits n.
Proof. intros Hn. destruct n as [|q|q]; [reflexivity|reflexivity|lia]. Qed.

Lemma repeat_char_spaces (n : nat) : repeat_char " " n = SizeSpec.spaces n.
Proof. induction n as [|n IH]; [done|]. simpl. by rewrite IH. Qed.

Lemma rjust_right_justified (w : nat) (s : string) :
  rjust w s = SizeSpec.right_justified w s.
Proof. unfold rjust, SizeSpec.right_justified. by rewrite repeat_char_spaces. Qed.

Lemma round_half_even_nearest (n d : Z) :
  0 < d -> SizeSpec.nearest n d (round_half_even n d).
Proof.
  intros Hd. unfold SizeSpec.nearest, round_half_even.
  pose proof (Z.div_mod n d ltac:(lia)) as Hdm.
  pose proof (Z.mod_pos_bound n d Hd) as Hr.
  destruct (Z.ltb_spec (2 * (n mod d)) d) as [Hlt|Hge].
  { split; [lia|]. intros Htie. lia. }
  destruct (Z.ltb_spec d (2 * (n mod d))) as [Hgt|Hle].
  { split; [lia|]. intros Htie. lia. }
  destruct (Z.even (n / d)) eqn:Heven.
  { split; [lia|]. by intros _. }
  split; [lia|]. intros _. rewrite Z.even_add, Heven. reflexivity.
Qed.

Lemma round_half_even_nonneg (n d : Z) : 0 <= n -> 0 < d -> 0 <= round_half_even n d.
Proof.
  intros Hn Hd. pose proof (round_half_even_ge n d).
  pose proof (Z.div_pos n d Hn Hd). lia.
Qed.

(** What the two format specifications print is the specified text. *)
Lemma scaled_format (x k : Z) (unit : string) :
  0 <= x -> 0 <= k ->
  SizeSpec.scaled x k unit
    (if lt_int (Dy x k) 10 then format_1f (Dy x k) +:+ unit
     else format_3_0f (Dy x k) +:+ unit).
Proof.
  intros Hx Hk. assert (Hd : 0 < 2 ^ k) by (apply Z.pow_pos_nonneg; lia).
  unfold SizeSpec.scaled, lt_int, format_1f, format_3_0f. cbn [dnum dexp].
  destruct (x <? 10 * 2 ^ k).
  - exists (round_half_even (10 * x) (2 ^ k)).
    split; [by apply round_half_even_nearest|].
    pose proof (round_half_even_nonneg (10 * x) (2 ^ k) ltac:(lia) Hd) as Ht.
    unfold SizeSpec.one_decimal.
    rewrite !str_of_Z_digits; [done| |].
    + apply Z.mod_pos_bound. lia.
    + apply Z.div_pos; lia.
  - exists (round_half_even x (2 ^ k)).
    split; [by apply round_half_even_nearest|].
    rewrite rjust_right_justified, str_of_Z_digits; [done|].
    by apply round_half_even_nonneg.
Qed.

Lemma of_int_nearest_double (n : Z) :
  0 <= n -> SizeSpec.nearest_double n (dnum (of_int n)).
Proof.
  intros Hn. unfold SizeSpec.nearest_double, of_int.
  destruct (Z.leb_spec (Z.log2 n + 1) 53) as [Hbits|Hbits]; cbn [dnum].
  - rewrite Z.max_l by lia. exists n. split; [simpl; lia|].
    split; [simpl; lia|]. simpl. lia.
  - rewrite Z.max_r by lia.
    replace (Z.log2 n + 1 - 53) with (Z.log2 n - 52) by lia.
    eexists. split; [reflexivity|].
    apply round_half_even_nearest, Z.pow_pos_nonneg; lia.
Qed.

End SizeFacts.

Section SizeColumn.
Import PyStr PyFloat SizeSpec SizeFacts.

(** C6. For every non-negative byte count both size formatters return the
    same string, which is: the fixed ["  0 "] for 0; below 1024 the digits of
    the count right-justified to width 3 and a space; from 1024 and below
    1024^2 the count divided by 1024, to the nearest tenth with one decimal
    place if it is below 10 and to the nearest integer right-justified to
    width 3 otherwise, then ["K"]; the same with 1024^2 and ["M"], and from
    1024^3 on with 1024^3 and ["G"] (there the number divided is the double
    nearest to the count, which is the count itself below 2^53).  So 512
    gives ["512 "], 2048 gives ["2.0K"] and 15*1024*1024 gives [" 15M"]. *)
Theorem size_formatting :
  forall size : Z,
    0 <= size ->
    PathlibMain.format_size size = App.format_file_size size
    /\ OsPathMain.format_file_size size = App.format_file_size size
    /\ (size = 0 -> App.format_file_size size = "  0 ")
    /\ (0 < size < 1024 ->
        App.format_file_size size = right_justified 3 (digits size) +:+ " ")
    /\ (1024 <= size < 1024 * 1024 ->
        scaled size 10 "K" (App.format_file_size size))
    /\ (1024 * 1024 <= size < 1024 * 1024 * 1024 ->
        scaled size 20 "M" (App.format_file_size size))
    /\ (1024 * 1024 * 1024 <= size ->
        (exists x : Z,
            nearest_double size x /\ scaled x 30 "G" (App.format_file_size size))
        /\ (size < 2 ^ 53 -> scaled size 30 "G" (App.format_file_size size)))
    /\ App.format_file_size 0 = "  0 "
    /\ App.format_file_size 512 = "512 "
    /\ App.format_file_size 2048 = "2.0K"
    /\ App.format_file_size (15 * 1024 * 1024) = " 15M".
Proof.
  intros size Hsize.
  split; [by apply format_size_same|]. split; [done|].
  split; [by intros ->|].
  split.
  { intros [H1 H2]. unfold App.format_file_size.
    destruct (Z.eqb_spec size 0); [lia|]. destruct (Z.ltb_spec size 1024); [|lia].
    unfold format_3d. by rewrite rjust_right_justified, str_of_Z_digits. }
  split.
  { intros [H1 H2]. unfold App.format_file_size.
    destruct (Z.eqb_spec size 0); [lia|]. destruct (Z.ltb_spec size 1024); [lia|].
    destruct (Z.ltb_spec size (1024 * 1024)); [|lia].
    rewrite of_int_small by (change (2 ^ 53) with 9007199254740992; lia).
    apply (scaled_format size 10 "K"); lia. }
  split.
  { intros [H1 H2]. unfold App.format_file_size.
    destruct (Z.eqb_spec size 0); [lia|]. destruct (Z.ltb_spec size 1024); [lia|].
    destruct (Z.ltb_spec size (1024 * 1024)); [lia|].
    destruct (Z.ltb_spec size (1024 * 1024 * 1024)); [|lia].
    rewrite of_int_small by (change (2 ^ 53) with 9007199254740992; lia).
    apply (scaled_format size 20 "M"); lia. }
  split.
  { intros H1.
    assert (Hout : App.format_file_size size
                   = (if lt_int (Dy (dnum (of_int size)) 30) 10
                      then format_1f (Dy (dnum (of_int size)) 30) +:+ "G"
                      else format_3_0f (Dy (dnum (of_int size)) 30) +:+ "G")).
    { unfold App.format_file_size.
      destruct (Z.eqb_spec size 0); [lia|]. destruct (Z.ltb_spec size 1024); [lia|].
      destruct (Z.ltb_spec size (1024 * 1024)); [lia|].
      destruct (Z.ltb_spec size (1024 * 1024 * 1024)); [lia|].
      unfold div_pow2. by rewrite of_int_dexp. }
    split.
    - exists (dnum (of_int size)). split; [by apply of_int_nearest_double|].
      rewrite Hout. apply scaled_format; [|lia].
      destruct (Z.lt_ge_cases size (2 ^ 53)) as [Hlt|Hge].
      + rewrite of_int_small by lia. simpl. lia.
      + pose proof (of_int_large size Hge). lia.
    - intros H2. rewrite Hout, of_int_small by lia. cbn [dnum].
      apply scaled_format; lia. }
  repeat split; vm_compute; reflexivity.
Qed.

Lemma size_formatting_witness :
  0 <= 2048
  /\ PathlibMain.format_size 2048 = App.format_file_size 2048
  /\ SizeSpec.scaled 2048 10 "K" (App.format_file_size 2048).
Proof.
  assert (H0 : 0 <= 2048) by (intros H; discriminate H).
  destruct (size_formatting 2048 H0) as (Hsame & _ & _ & _ & Hk & _).
  split; [exact H0|]. split; [exact Hsame|].
  apply Hk. split; [intros H; discriminate H | reflexivity].
Defined.

End SizeColumn.

(* ===================================================================== *)
(** * Path confinement (claims C1 and C2) *)
(* ===================================================================== *)

Module PathFacts.
Import Pathlib.

Lemma removelast_elem_of {A} (x : A) (l : list A) : x ∈ removelast l -> x ∈ l.
Proof.
  induction l as [|y l IH]; simpl; [done|].
  destruct l as [|z l]; [by intros ?%not_elem_of_nil|].
  intros [->|Hx]%elem_of_cons; [left|right; by apply IH].
Qed.

Lemma resolve_steps_clean (acc l : list string) :
  ".." ∉ acc -> ".." ∉ foldl resolve_step acc l.
Proof.
  revert acc. induction l as [|c l IH]; intros acc Hacc; [done|].
  simpl. apply IH. unfold resolve_step. case_bool_decide as Hc.
  - intros Hin. by apply Hacc, removelast_elem_of.
  - intros [Hin|Hin]%elem_of_app; [done|]. apply list_elem_of_singleton in Hin. done.
Qed.

Lemma resolve_steps_plain (acc l : list string) :
  ".." ∉ l -> foldl resolve_step acc l = acc ++ l.
Proof.
  revert acc. induction l as [|c l IH]; intros acc Hl; simpl.
  - by rewrite app_nil_r.
  - rewrite IH by (intros Hin; apply Hl; by right).
    unfold resolve_step. rewrite bool_decide_eq_false_2 by (intros ->; apply Hl; left).
    by rewrite <- app_assoc.
Qed.

(** Resolving a resolved path changes nothing. *)
Lemma resolve_lexical_idempotent (cwd : list string) (p : path) :
  ".." ∉ cwd ->
  resolve_lexical cwd (resolve_lexical cwd p) = resolve_lexical cwd p.
Proof.
  intros Hcwd. unfold resolve_lexical. simpl. f_equal.
  apply (resolve_steps_plain []), resolve_steps_clean.
  destruct (absolute p); [apply not_elem_of_nil|done].
Qed.

End PathFacts.

Section PathConfinement.
Import Pathlib.

(** C1 at the failing input.  With the root [/srv/share] and the subpath
    [../share-evil/secret.txt] (also when it arrives percent-encoded), the two
    os.path variants compare text: the normalized path starts with the text
    of the root, so they serve the sibling's file, and the zip download of
    [../share-evil] delivers the sibling directory.  The pathlib variant
    compares components and answers 403 in both cases. *)
Theorem sibling_prefix_escapes_os_path_check :
  App.directory_listing "/srv/share" Samples.disk "" "../share-evil/secret.txt"
  = SendFile "/srv/share-evil/secret.txt"
  /\ App.directory_listing "/srv/share" Samples.disk "" "%2e%2e/share-evil/secret.txt"
     = SendFile "/srv/share-evil/secret.txt"
  /\ answer (OsPathMain.directory_listing "/srv/share" false Samples.disk
               "/tmp/tmpk3v9.zip" Samples.no_request "../share-evil/secret.txt")
     = SendFile "/srv/share-evil/secret.txt"
  /\ answer (OsPathMain.directory_listing "/srv/share" false Samples.disk
               "/tmp/tmpk3v9.zip" (Samples.download_request "../share-evil") "")
     = Attachment "/tmp/tmpk3v9.zip" "../share-evil.zip"
         [("/srv/share-evil/secret.txt", "secret.txt")]
  /\ is_relative_to (parse "/srv/share-evil/secret.txt") Samples.root = false
  /\ answer (PathlibMain.list_endpoint Samples.root false (resolve_lexical [])
               Samples.disk "/tmp/tmpk3v9.zip" Samples.no_request
               "../share-evil/secret.txt")
     = Abort 403
  /\ answer (PathlibMain.list_endpoint Samples.root false (resolve_lexical [])
               Samples.disk "/tmp/tmpk3v9.zip"
               (Samples.download_request "../share-evil") "")
     = Abort 403.
Proof. repeat split; vm_compute; reflexivity. Qed.



(** C2 at the failing input.  An upload to the root [/srv/share] with the
    relative path [../share-backup/x.bin]: the os.path variant checks that the
    text of the destination starts with the text of the target directory, so
    it creates the directory [/srv/share-backup], which did not exist, and
    saves the file there, outside the root.  The pathlib variant rejects the
    upload with 400 and writes nothing.  Both reject [../outside.bin]. *)
Theorem upload_escapes_to_sibling_directory :
  OsPathMain.upload_file "/srv/share" Samples.disk
    (Samples.upload_request "x.bin" "../share-backup/x.bin") ""
  = (Json 200 true "File ../share-backup/x.bin uploaded successfully",
     [MakeDirs "/srv/share-backup"; SaveFile "/srv/share-backup/x.bin"])
  /\ FS.exists_ Samples.disk "/srv/share-backup" = false
  /\ is_relative_to (parse "/srv/share-backup/x.bin") Samples.root = false
  /\ PathlibMain.upload_endpoint Samples.root (resolve_lexical []) Samples.disk
       (Samples.upload_request "x.bin" "../share-backup/x.bin") ""
     = (Json 400 false "Invalid path", [])
  /\ OsPathMain.upload_file "/srv/share" Samples.disk
       (Samples.upload_request "x.bin" "../outside.bin") ""
     = (Json 400 false "Invalid directory path", [])
  /\ PathlibMain.upload_endpoint Samples.root (resolve_lexical []) Samples.disk
       (Samples.upload_request "x.bin" "../outside.bin") ""
     = (Json 400 false "Invalid path", []).
Proof. repeat split; vm_compute; reflexivity. Qed.



End PathConfinement.

(* ===================================================================== *)
(** * Hidden entries and temporary archives (claims C3 and C4) *)
(* ===================================================================== *)

Section Archives.
Import Pathlib SortSpec ListingFacts.

(** C3 at the failing input.  The archive of [/srv/share/project], which
    holds [a.txt], [sub/b.txt], the hidden file [.secret] and the hidden
    directory [.git] with a file [config]: both archive builders skip
    [.secret] but walk into [.git], so the archive has the member
    [.git/config], a file below a dot-directory whose archive name starts
    with a dot.  The listing of the same directory shows neither [.secret]
    nor [.git]. *)
Theorem archive_walks_into_dot_directories :
  answer (OsPathMain.directory_listing "/srv/share" false Samples.project_disk
            "/tmp/tmpk3v9.zip" (Samples.download_request "project") "")
  = Attachment "/tmp/tmpk3v9.zip" "project.zip"
      [ ("/srv/share/project/a.txt", "a.txt");
        ("/srv/share/project/sub/b.txt", "sub/b.txt");
        ("/srv/share/project/.git/config", ".git/config") ]
  /\ answer (PathlibMain.list_endpoint Samples.root false (resolve_lexical [])
               Samples.project_disk "/tmp/tmpk3v9.zip"
               (Samples.download_request "project") "")
     = Attachment "/tmp/tmpk3v9.zip" "project.zip"
         [ ("/srv/share/project/a.txt", "a.txt");
           ("/srv/share/project/sub/b.txt", "sub/b.txt");
           ("/srv/share/project/.git/config", ".git/config") ]
  /\ name <$> OsPathMain.get_directory_listing Samples.project_disk
                "/srv/share/project" "name" "A" false
     = ["sub"; "a.txt"].
Proof. repeat split; vm_compute; reflexivity. Qed.

Lemma scan_hides_dots (e : entry) (items : list FS.node) (l : list entry) :
  App.scan items = Some l -> e ∈ l -> PyStr.startswith "." (name e) = false.
Proof.
  intros [-> _]%ListingFacts.scan_Some (item & -> & Hitem)%list_elem_of_fmap.
  apply list_elem_of_In, List.filter_In in Hitem as [_ Hdot].
  by apply negb_true_iff in Hdot.
Qed.

Lemma pathlib_scan_hides_dots (e : entry) (items : list FS.node) (l : list entry) :
  PathlibMain.scan items = Some l -> e ∈ l -> PyStr.startswith "." (name e) = false.
Proof.
  intros [-> _]%ListingFacts.pathlib_scan_Some (item & -> & Hitem)%list_elem_of_fmap.
  apply list_elem_of_In, List.filter_In in Hitem as [_ Hdot].
  by apply negb_true_iff in Hdot.
Qed.

Lemma listed_elem_of (c : column) (s : style) (o : order) (e : entry)
    (l : list entry) :
  e ∈ listed c s o l -> e ∈ l.
Proof.
  destruct o; unfold listed; [|rewrite elem_of_reverse];
    by rewrite (sorted_by_perm c s l).
Qed.

(** X3. No listing of any variant, for any directory, column, style and order,
    has an entry whose name starts with a dot. *)
Theorem listings_hide_dot_entries :
  forall (fs : FS.filesystem) (dir : string) (p : path) (c : column) (s : style)
         (o : order) (e : entry),
    (e ∈ App.get_directory_listing fs dir (sort_by_of c) (order_code o) ->
     PyStr.startswith "." (name e) = false)
    /\ (e ∈ OsPathMain.get_directory_listing fs dir (sort_by_of c) (order_code o)
              (apache_style_of s) ->
        PyStr.startswith "." (name e) = false)
    /\ (forall l : list entry,
          PathlibMain.directory_listing_data fs p (sort_by_of c) (order_code o)
            (apache_style_of s) = Some l ->
          e ∈ l -> PyStr.startswith "." (name e) = false).
Proof.
  intros fs dir p c s o e. repeat split.
  - rewrite app_listing. destruct (FS.listdir fs dir) as [items|]; simpl;
      [destruct (App.scan items) as [files|] eqn:Hscan; simpl|].
    + intros He%listed_elem_of. by eapply scan_hides_dots.
    + by intros ?%not_elem_of_nil.
    + by intros ?%not_elem_of_nil.
  - rewrite ospath_listing. destruct (FS.listdir fs dir) as [items|]; simpl;
      [destruct (App.scan items) as [files|] eqn:Hscan; simpl|].
    + intros He%listed_elem_of. by eapply scan_hides_dots.
    + by intros ?%not_elem_of_nil.
    + by intros ?%not_elem_of_nil.
  - intros l. rewrite pathlib_listing. intros [= <-].
    destruct (FS.listdir fs (str p)) as [items|]; simpl;
      [destruct (PathlibMain.scan items) as [files|] eqn:Hscan; simpl|].
    + intros He%listed_elem_of. by eapply pathlib_scan_hides_dots.
    + by intros ?%not_elem_of_nil.
    + by intros ?%not_elem_of_nil.
Qed.

(** C4 at the failing input.  A zip download of [/srv/share/sub] whose file
    [b.txt] cannot be read: the os.path variant answers 500 from its
    [except] clause without unlinking, so the temporary archive is still on
    disk after the response is closed.  The pathlib variant unlinks it before
    answering 500.  On the readable tree both deliver the archive and their
    close hook removes the file. *)
Theorem temporary_archive_survives_failed_walk :
  OsPathMain.directory_listing "/srv/share" false Samples.disk_unreadable
    "/tmp/tmpk3v9.zip" (Samples.download_request "sub") ""
  = Served (Abort 500) ["/tmp/tmpk3v9.zip"] []
  /\ after_close
       (OsPathMain.directory_listing "/srv/share" false Samples.disk_unreadable
          "/tmp/tmpk3v9.zip" (Samples.download_request "sub") "")
     = ["/tmp/tmpk3v9.zip"]
  /\ PathlibMain.list_endpoint Samples.root false (resolve_lexical [])
       Samples.disk_unreadable "/tmp/tmpk3v9.zip" (Samples.download_request "sub") ""
     = Served (Abort 500) [] []
  /\ after_close
       (OsPathMain.directory_listing "/srv/share" false Samples.disk
          "/tmp/tmpk3v9.zip" (Samples.download_request "sub") "")
     = []
  /\ after_close
       (PathlibMain.list_endpoint Samples.root false (resolve_lexical [])
          Samples.disk "/tmp/tmpk3v9.zip" (Samples.download_request "sub") "")
     = [].
Proof. repeat split; vm_compute; reflexivity. Qed.

(** X4. In the pathlib variant no request leaves a temporary archive behind once
    its response is closed, and a walk that fails is answered 500 with the
    temporary file already removed, never with an attachment. *)
Theorem pathlib_never_leaves_temporary_archive :
  forall (root : path) (style : bool) (resolve : path -> path) (fs : FS.filesystem)
         (tmp : string) (req : request) (subpath : string) (directory : path)
         (child : string),
    after_close (PathlibMain.list_endpoint root style resolve fs tmp req subpath) = []
    /\ after_close
         (PathlibMain.download_directory_as_zip root resolve fs tmp directory child)
       = []
    /\ (PathlibMain.zip_members fs (resolve (truediv directory child)) = None ->
        exists code : Z,
          PathlibMain.download_directory_as_zip root resolve fs tmp directory child
          = Served (Abort code) [] []).
Proof.
  intros root style resolve fs tmp req subpath directory child.
  assert (Hdl : forall d ch,
             after_close
               (PathlibMain.download_directory_as_zip root resolve fs tmp d ch) = []).
  { intros d ch. unfold PathlibMain.download_directory_as_zip.
    destruct (negb _ || negb _); [done|].
    destruct (PathlibMain.zip_members fs _); [|done].
    unfold after_close. simpl. rewrite bool_decide_eq_true_2 by left. done. }
  repeat split.
  - unfold PathlibMain.list_endpoint.
    repeat match goal with
           | |- context [if ?b then _ else _] => destruct b; [done|]
           end.
    destruct (args req !! "download") as [[|a d]|]; try done; apply Hdl.
  - apply Hdl.
  - intros Hnone. unfold PathlibMain.download_directory_as_zip. rewrite Hnone.
    destruct (negb _ || negb _); by eexists.
Qed.

End Archives.

(* ===================================================================== *)
(** * More on the listings: content, Mixed order, entry fields *)
(* ===================================================================== *)

Module ListingContent.
Import SortSpec ListingFacts.








Lemma app_listing_perm (fs : FS.filesystem) (dir sort_by sort_order : string) :
  App.get_directory_listing fs dir sort_by sort_order
  ≡ₚ default [] (FS.listdir fs dir ≫= App.scan).
Proof.
  unfold App.get_directory_listing.
  destruct (FS.listdir fs dir ≫= App.scan) as [files|]; [|done].
  simpl. destruct (bool_decide (sort_order = "D")); [rewrite reverse_Permutation|];
    repeat case_bool_decide; by rewrite ?PySortFacts.sort_perm.
Qed.

Lemma ospath_listing_perm (fs : FS.filesystem) (dir sort_by sort_order : string)
    (apache_style : bool) :
  OsPathMain.get_directory_listing fs dir sort_by sort_order apache_style
  ≡ₚ default [] (FS.listdir fs dir ≫= App.scan).
Proof.
  unfold OsPathMain.get_directory_listing, OsPathMain.scan.
  destruct (FS.listdir fs dir ≫= App.scan) as [files|]; [|done].
  simpl. destruct (bool_decide (sort_order = "D")); [rewrite reverse_Permutation|];
    destruct apache_style; repeat case_bool_decide; by rewrite ?PySortFacts.sort_perm.
Qed.

Lemma pathlib_listing_perm (fs : FS.filesystem) (p : Pathlib.path)
    (sort_by sort_order : string) (apache_style : bool) (l : list entry) :
  PathlibMain.directory_listing_data fs p sort_by sort_order apache_style = Some l ->
  l ≡ₚ default [] (FS.listdir fs (Pathlib.str p) ≫= PathlibMain.scan).
Proof.
  unfold PathlibMain.directory_listing_data.
  destruct (FS.listdir fs (Pathlib.str p) ≫= PathlibMain.scan) as [files|];
    [|by intros [= <-]].
  simpl. unfold PathlibMain.sort_entries.
  destruct (bool_decide (sort_order = "D")); repeat case_bool_decide;
    destruct apache_style; simpl;
    try (intros [= <-]; by rewrite ?reverse_Permutation, ?PySortFacts.sort_perm).
  all: destruct files; simpl; [by intros [= <-]|done].
Qed.








End ListingContent.

Section ListingExtras.
Import SortSpec ListingFacts ListingContent.


(** X6. Under the Mixed style the ascending listing of every variant is in
    the order of the column's key over all entries, directories and files
    interleaved, and the descending listing is in the opposite order. *)
Theorem mixed_listing_is_sorted_by_key :
  forall (fs : FS.filesystem) (dir : string) (p : Pathlib.path) (c : column),
    Sorted (value_le c) (App.get_directory_listing fs dir (sort_by_of c) "A")
    /\ Sorted (flip (value_le c)) (App.get_directory_listing fs dir (sort_by_of c) "D")
    /\ Sorted (value_le c)
         (OsPathMain.get_directory_listing fs dir (sort_by_of c) "A" true)
    /\ Sorted (flip (value_le c))
         (OsPathMain.get_directory_listing fs dir (sort_by_of c) "D" true)
    /\ exists asc desc : list entry,
         PathlibMain.directory_listing_data fs p (sort_by_of c) "A" true = Some asc
         /\ PathlibMain.directory_listing_data fs p (sort_by_of c) "D" true = Some desc
         /\ Sorted (value_le c) asc /\ Sorted (flip (value_le c)) desc.
Proof.
  intros fs dir p c.
  assert (Hs : forall l, Sorted (value_le c) (sorted_by c Mixed l))
    by (intros l; destruct c; apply PySortFacts.sort_sorted).
  rewrite (app_listing fs dir c Ascending
           : App.get_directory_listing fs dir _ "A" = _).
  rewrite (app_listing fs dir c Descending
           : App.get_directory_listing fs dir _ "D" = _).
  rewrite (ospath_listing fs dir c Mixed Ascending
           : OsPathMain.get_directory_listing fs dir _ "A" true = _).
  rewrite (ospath_listing fs dir c Mixed Descending
           : OsPathMain.get_directory_listing fs dir _ "D" true = _).
  rewrite (pathlib_listing fs p c Mixed Ascending
           : PathlibMain.directory_listing_data fs p _ "A" true = _).
  rewrite (pathlib_listing fs p c Mixed Descending
           : PathlibMain.directory_listing_data fs p _ "D" true = _).
  assert (Hd : forall o : option (list entry),
             Sorted (flip (value_le c))
               (from_option (listed c Mixed Descending) [] o)).
  { intros [files|]; [|constructor]. simpl. apply Sorted_reverse, Hs. }
  assert (Ha : forall o : option (list entry),
             Sorted (value_le c) (from_option (listed c Mixed Ascending) [] o)).
  { intros [files|]; [|constructor]. simpl. apply Hs. }
  repeat split; try apply Ha; try apply Hd.
  eexists _, _. repeat split; [apply Ha | apply Hd].
Qed.

(** X7. Every entry of every listing has an empty description; a directory
    shows the dash placeholder and counts zero bytes for sorting; a file
    shows the formatted form of the very byte count it is sorted by. *)
Theorem listed_entry_fields :
  forall (fs : FS.filesystem) (dir : string) (p : Pathlib.path)
         (sort_by sort_order : string) (apache_style : bool) (e : entry),
    let well_formed (format : Z -> string) :=
      description e = EmptyString
      /\ (is_directory e = true -> size_formatted e = "  - " /\ size_bytes e = 0)
      /\ (is_directory e = false -> size_formatted e = format (size_bytes e)) in
    (e ∈ App.get_directory_listing fs dir sort_by sort_order ->
     well_formed App.format_file_size)
    /\ (e ∈ OsPathMain.get_directory_listing fs dir sort_by sort_order apache_style ->
        well_formed OsPathMain.format_file_size)
    /\ (forall l : list entry,
          PathlibMain.directory_listing_data fs p sort_by sort_order apache_style
          = Some l ->
          e ∈ l -> well_formed PathlibMain.format_size).
Proof.
  intros fs dir p sort_by sort_order apache_style e well_formed.
  assert (Happ : forall o, e ∈ default [] (o ≫= App.scan) ->
                           well_formed App.format_file_size).
  { intros [items|]; simpl; [|by intros ?%not_elem_of_nil].
    destruct (App.scan items) as [l|] eqn:Hscan; simpl; [|by intros ?%not_elem_of_nil].
    apply scan_Some in Hscan as [-> _]. intros (item & -> & _)%list_elem_of_fmap.
    by destruct item. }
  assert (Hpl : forall o, e ∈ default [] (o ≫= PathlibMain.scan) ->
                          well_formed PathlibMain.format_size).
  { intros [items|]; simpl; [|by intros ?%not_elem_of_nil].
    destruct (PathlibMain.scan items) as [l|] eqn:Hscan; simpl;
      [|by intros ?%not_elem_of_nil].
    apply pathlib_scan_Some in Hscan as [-> _].
    intros (item & -> & _)%list_elem_of_fmap. by destruct item. }
  split; [|split].
  - rewrite app_listing_perm. apply Happ.
  - rewrite ospath_listing_perm. apply Happ.
  - intros l Hl. rewrite (pathlib_listing_perm _ _ _ _ _ _ Hl). apply Hpl.
Qed.


End ListingExtras.

(* ===================================================================== *)
(** * More on archives and uploads *)
(* ===================================================================== *)

Module TransferFacts.
Import PyStr.

Lemma write_members_spec (fs : FS.filesystem) (arc_name : string -> string)
    (sources : list string) (members : list (string * string)) :
  write_members fs arc_name sources = Some members ->
  members = (fun file_path => (file_path, arc_name file_path)) <$> sources
  /\ Forall (fun file_path => FS.can_read fs file_path = true) sources.
Proof.
  unfold write_members. intros Hm%mapM_Some_1.
  induction Hm as [|x y l k Hxy _ [IH1 IH2]]; [done|].
  destruct (FS.can_read fs x) eqn:Hr; [|done]. injection Hxy as <-.
  split; [by rewrite fmap_cons, IH1 | by constructor].
Qed.

Lemma write_members_unreadable (fs : FS.filesystem) (arc_name : string -> string)
    (sources : list string) (file_path : string) :
  file_path ∈ sources -> FS.can_read fs file_path = false ->
  write_members fs arc_name sources = None.
Proof.
  intros Hin Hr. unfold write_members. apply mapM_None_2, Exists_exists.
  exists file_path. split; [done|]. by rewrite Hr.
Qed.

Lemma contains_lstrip (c a : ascii) (s : string) :
  contains c s = false -> contains c (lstrip a s) = false.
Proof.
  induction s as [|x s IH]; simpl; [done|].
  intros [Hx Hs]%orb_false_elim. destruct (ascii_eqb x a); [by apply IH|].
  simpl. by rewrite Hx, Hs.
Qed.

Lemma contains_replaced (a b : ascii) (s : string) :
  a <> b -> contains a (replace a b s) = false.
Proof.
  intros Hab. induction s as [|x s IH]; simpl; [done|]. rewrite IH, orb_false_r.
  unfold ascii_eqb. apply bool_decide_eq_false.
  destruct (bool_decide (x = a)) eqn:E; [congruence|by apply bool_decide_eq_false in E].
Qed.

Lemma lstrip_idempotent (c : ascii) (s : string) : lstrip c (lstrip c s) = lstrip c s.
Proof.
  induction s as [|x s IH]; simpl; [done|].
  destruct (ascii_eqb x c) eqn:E; [done|]. simpl. by rewrite E.
Qed.

(** Normalizing a normalized relative path changes nothing. *)
Lemma normalize_idempotent (s : string) :
  lstrip "/" (replace backslash "/" (lstrip "/" (replace backslash "/" s)))
  = lstrip "/" (replace backslash "/" s).
Proof.
  rewrite (QueryFacts.replace_absent backslash "/" (lstrip _ _)).
  - apply lstrip_idempotent.
  - apply contains_lstrip, contains_replaced. by vm_compute.
Qed.

(** The two accounts of [os.makedirs] agree: the tree is returned exactly
    when no component is in the way. *)
Lemma makedirs_in_blocked (comps : list string) (nm : string) (t : Z) (li : bool)
    (ch : list FS.node) :
  is_Some (FS.makedirs_in comps ch)
  <-> makedirs_blocked (FS.Dir nm t li ch) comps = false.
Proof.
  revert nm t li ch. induction comps as [|c cs IH]; intros nm t li ch.
  - simpl. split; [done|by eexists].
  - cbn [makedirs_blocked]. induction ch as [|n l IHl].
    + simpl. split; [done|by eexists].
    + cbn [FS.makedirs_in FS.find_child] in *. case_bool_decide as Hn.
      * destruct n as [fn sz mt r|dn dt dl sub|bn].
        -- split; [by intros [? ?]|by destruct cs].
        -- rewrite <- (IH dn dt dl sub).
           destruct (FS.makedirs_in cs sub); split; intros [? ?]; by eexists.
        -- split; [by intros [? ?]|by destruct cs].
      * rewrite <- IHl.
        match goal with
        | |- context [match ?x with Some _ => _ | None => _ end] => destruct x
        end; split; intros [? ?]; by eexists.
Qed.

Lemma makedirs_ok_makedirs (fs : FS.filesystem) (path : string) :
  makedirs_ok fs path = true <-> is_Some (FS.makedirs fs path).
Proof.
  unfold makedirs_ok, FS.makedirs, FS.root_node.
  rewrite negb_true_iff. symmetry. apply makedirs_in_blocked.
Qed.

End TransferFacts.

Section Transfers.
Import Transfer TransferFacts.

(** X9. The zip download of the os.path variant never answers 403 or 404:
    its [abort(403)] and [abort(404)] are raised inside the [try] block whose
    [except Exception] answers 500.  A target outside the text prefix of the
    root, a missing target and a target that is not a directory all give 500,
    with no temporary file created; every other request gives the attachment
    named after the requested child, or 500. *)
Theorem ospath_download_fails_only_with_500 :
  forall (SERVE_ROOT : string) (fs : FS.filesystem)
         (tmp full_path download_param subpath : string),
    let target := PosixPath.normpath (PosixPath.join full_path download_param) in
    let r := OsPathMain.download_directory_as_zip SERVE_ROOT fs tmp full_path
               download_param subpath in
    (answer r = Abort 500
     \/ exists members, answer r = Attachment tmp (download_param +:+ ".zip") members)
    /\ (PyStr.startswith (PosixPath.normpath SERVE_ROOT) target = false
        \/ FS.isdir fs target = false ->
        r = Served (Abort 500) [] []).
Proof.
  intros SERVE_ROOT fs tmp full_path download_param subpath target r.
  subst r. unfold OsPathMain.download_directory_as_zip, OsPathMain.download_try.
  fold target.
  destruct (PyStr.startswith (PosixPath.normpath SERVE_ROOT) target) eqn:Hp; simpl.
  2: { split; [by left|done]. }
  unfold FS.exists_, FS.isdir. destruct (FS.stat fs target) as [n|]; simpl.
  2: { split; [by left|done]. }
  destruct (FS.node_is_dir n); simpl.
  2: { split; [by left|done]. }
  destruct (write_members fs _ _) as [members|]; simpl.
  - split; [right; by eexists|]. by intros [|].
  - split; [by left|]. by intros [|].
Qed.

(** X10. An archive is delivered whole or not at all.  When the os.path
    variant answers with an attachment, every file of the walk whose name does
    not start with a dot was readable and is a member, in the order of the
    walk, under its path relative to the target; and as soon as one of those
    files cannot be read, the answer is 500 instead. *)
Theorem archive_is_all_or_nothing :
  forall (SERVE_ROOT : string) (fs : FS.filesystem)
         (tmp full_path download_param subpath : string),
    let target := PosixPath.normpath (PosixPath.join full_path download_param) in
    let r := OsPathMain.download_directory_as_zip SERVE_ROOT fs tmp full_path
               download_param subpath in
    (forall (path dl : string) (members : list (string * string)),
        answer r = Attachment path dl members ->
        members = (fun file_path => (file_path, FS.relpath file_path target))
                    <$> archive_sources fs target
        /\ Forall (fun file_path => FS.can_read fs file_path = true)
             (archive_sources fs target))
    /\ (forall file_path : string,
          file_path ∈ archive_sources fs target ->
          FS.can_read fs file_path = false ->
          answer r = Abort 500).
Proof.
  intros SERVE_ROOT fs tmp full_path download_param subpath target r.
  subst r. unfold OsPathMain.download_directory_as_zip, OsPathMain.download_try.
  fold target. split.
  - intros path dl members.
    destruct (negb (PyStr.startswith _ target)); [done|].
    destruct (negb (FS.exists_ fs target) || negb (FS.isdir fs target)); [done|].
    destruct (write_members fs _ _) as [ms|] eqn:Hw; [|done].
    simpl. intros [= _ _ <-]. by apply write_members_spec in Hw.
  - intros file_path Hin Hr.
    destruct (negb (PyStr.startswith _ target)); [done|].
    destruct (negb (FS.exists_ fs target) || negb (FS.isdir fs target)); [done|].
    by rewrite (write_members_unreadable _ _ _ _ Hin Hr).
Qed.

(** X11. Leading slashes and backslashes of the client's relative path do
    not matter: in both upload handlers a request whose [path] field is [p]
    is answered, and acted on, exactly as the request whose [path] field is
    [p] with every backslash turned into a slash and the leading slashes
    removed.  An absolute [path] therefore never replaces the target
    directory. *)
Theorem upload_path_is_normalized :
  forall (root : string) (proot : Pathlib.path)
         (resolve : Pathlib.path -> Pathlib.path) (fs : FS.filesystem)
         (req : request) (subpath p : string),
    let normalized := PyStr.lstrip "/" (PyStr.replace PyStr.backslash "/" p) in
    OsPathMain.upload_file root fs (with_path req p) subpath
    = OsPathMain.upload_file root fs (with_path req normalized) subpath
    /\ PathlibMain.upload_endpoint proot resolve fs (with_path req p) subpath
       = PathlibMain.upload_endpoint proot resolve fs (with_path req normalized) subpath
    /\ PyStr.startswith "/" normalized = false
    /\ PyStr.contains PyStr.backslash normalized = false.
Proof.
  intros root proot resolve fs req subpath p normalized. subst normalized.
  unfold OsPathMain.upload_file, OsPathMain.place_upload,
    PathlibMain.upload_endpoint, with_path.
  cbn [args files form]. rewrite !lookup_insert_eq. cbn [default from_option].
  unfold id. rewrite !normalize_idempotent.
  repeat split.
  - generalize (PyStr.replace PyStr.backslash "/" p). intros s.
    induction s as [|x s IH]; [done|].
    cbn [PyStr.lstrip]. unfold PyStr.ascii_eqb at 1. case_bool_decide as Hx; [done|].
    cbn [PyStr.startswith]. unfold PyStr.ascii_eqb.
    apply andb_false_intro1, bool_decide_eq_false. congruence.
  - apply contains_lstrip, contains_replaced. by vm_compute.
Qed.

(** X12. In both upload handlers a file is saved exactly when the answer is
    the success acknowledgement with status 200: a successful upload saves
    one file, as its last operation, and every refusal or failure saves
    none.  So in the os.path variant an upload whose raw file name leads
    into a directory that does not exist ([nodir/x.bin] with the relative
    path [x.bin], for which no directory is created) is answered 500 with
    nothing saved, and so is one whose relative path ends in a slash, after
    its directory was created. *)
Theorem upload_saves_iff_success :
  forall (root : string) (proot : Pathlib.path)
         (resolve : Pathlib.path -> Pathlib.path) (fs : FS.filesystem)
         (req : request) (subpath : string),
    let saved_iff_success (r : response * list fs_op) :=
      (exists text, r.1 = Json 200 true text)
        /\ (exists p, saves r.2 = [p] /\ last r.2 = Some (SaveFile p))
      \/ (forall text, r.1 <> Json 200 true text) /\ saves r.2 = [] in
    saved_iff_success (OsPathMain.upload_file root fs req subpath)
    /\ saved_iff_success (PathlibMain.upload_endpoint proot resolve fs req subpath)
    /\ OsPathMain.upload_file "/srv/share" Samples.disk
         (Samples.upload_request "nodir/x.bin" "x.bin") ""
       = (Json 500 false "OSError", [])
    /\ OsPathMain.upload_file "/srv/share" Samples.disk
         (Samples.upload_request "x.bin" "newdir/") ""
       = (Json 500 false "OSError", [MakeDirs "/srv/share/newdir"]).
Proof.
  intros root proot resolve fs req subpath saved_iff_success. subst saved_iff_success.
  split; [|split; [|split; vm_compute; reflexivity]].
  - cbv beta zeta delta [OsPathMain.upload_file OsPathMain.place_upload].
    repeat match goal with
           | |- context [if ?b then _ else _] => destruct b
           | |- context [match files req !! "file" with _ => _ end] =>
               destruct (files req !! "file")
           | |- context [match FS.makedirs ?a ?b with _ => _ end] =>
               destruct (FS.makedirs a b)
           end; cbn [fst snd];
      first [ right; split; [intros text; discriminate | reflexivity]
            | left; split; [by eexists | eexists; split; reflexivity] ].
  - cbv beta zeta delta [PathlibMain.upload_endpoint].
    repeat match goal with
           | |- context [if ?b then _ else _] => destruct b
           | |- context [match files req !! "file" with _ => _ end] =>
               destruct (files req !! "file")
           end; cbn [fst snd];
      first [ right; split; [intros text; discriminate | reflexivity]
            | left; split; [by eexists | eexists; split; reflexivity] ].
Qed.

(** X13. What the two checks of the os.path upload handler do guarantee:
    every directory it creates and every file it saves has a normalized path
    that begins with the text of the normalized target directory. *)
Theorem ospath_upload_targets_keep_text_prefix :
  forall (root : string) (fs : FS.filesystem) (req : request) (subpath : string)
         (op : fs_op),
    let full_path :=
      PosixPath.normpath (PosixPath.join root (UrlParse.unquote subpath)) in
    op ∈ (OsPathMain.upload_file root fs req subpath).2 ->
    PyStr.startswith full_path (op_path op) = true.
Proof.
  intros root fs req subpath op full_path. subst full_path.
  cbv beta zeta delta [OsPathMain.upload_file OsPathMain.place_upload].
  repeat match goal with
         | |- context [if negb ?b then _ else _] => destruct b eqn:?; cbn [negb]
         | |- context [if ?b then _ else _] => destruct b eqn:?
         | |- context [match files req !! "file" with _ => _ end] =>
             destruct (files req !! "file")
         | |- context [match FS.makedirs ?a ?b with _ => _ end] =>
             destruct (FS.makedirs a b)
         end; cbn [fst snd app];
    intros Hop;
    repeat (apply elem_of_cons in Hop as [->|Hop]; [cbn [op_path]; assumption|]);
    by apply elem_of_nil in Hop.
Qed.

Lemma ospath_upload_targets_keep_text_prefix_witness :
  SaveFile "/srv/share/nested/dir/file.bin"
    ∈ (OsPathMain.upload_file "/srv/share" Samples.disk
         (Samples.upload_request "file.bin" "nested/dir/file.bin") "").2
  /\ PyStr.startswith "/srv/share" "/srv/share/nested/dir/file.bin" = true.
Proof.
  assert (Hin : SaveFile "/srv/share/nested/dir/file.bin"
                  ∈ (OsPathMain.upload_file "/srv/share" Samples.disk
                       (Samples.upload_request "file.bin" "nested/dir/file.bin") "").2).
  { vm_compute. right. left. }
  split; [exact Hin|].
  exact (ospath_upload_targets_keep_text_prefix "/srv/share" Samples.disk
           (Samples.upload_request "file.bin" "nested/dir/file.bin") ""
           (SaveFile "/srv/share/nested/dir/file.bin") Hin).
Defined.

End Transfers.

(* ===================================================================== *)
(** * More on the query parsers *)
(* ===================================================================== *)

Module ParserFacts.
Import PyStr Query QueryFacts.

Lemma keep_last_absent (key : string) (kvs : list (string * string))
    (acc : option string) :
  (forall w, (key, w) ∉ kvs) -> foldl (keep_last key) acc kvs = acc.
Proof.
  revert acc. induction kvs as [|[k w] kvs IH]; intros acc Hno; [done|].
  simpl. rewrite IH by (intros w' Hin; apply (Hno w'); by right).
  unfold keep_last. simpl. case_decide as Hk; [|done].
  subst k. destruct (Hno w). left.
Qed.

Lemma values_of_blank_prefix (key v : string) (pre post : list (string * string)) :
  v <> EmptyString ->
  (forall w, (key, w) ∈ pre -> w = EmptyString) ->
  head (values_of key (List.filter nonblank (pre ++ (key, v) :: post))) = Some v.
Proof.
  intros Hv. induction pre as [|[k w] pre IH]; intros Hpre.
  - simpl. unfold nonblank at 1. simpl. destruct v; [done|]. simpl.
    unfold values_of. simpl. by rewrite bool_decide_eq_true_2.
  - specialize (IH ltac:(intros w' Hin; apply Hpre; by right)).
    simpl. unfold nonblank at 1. simpl. destruct w as [|a w]; simpl; [done|].
    unfold values_of in *. simpl. case_bool_decide as Hk; simpl; [|done].
    subst k. by specialize (Hpre (String a w) ltac:(left)).
Qed.

Lemma values_of_all_blank (key : string) (kvs : list (string * string)) :
  (forall w, (key, w) ∈ kvs -> w = EmptyString) ->
  values_of key (List.filter nonblank kvs) = [].
Proof.
  induction kvs as [|[k w] kvs IH]; intros Hall; [done|].
  specialize (IH ltac:(intros w' Hin; apply Hall; by right)).
  simpl. unfold nonblank at 1. simpl. destruct w as [|a w]; simpl; [done|].
  unfold values_of in *. simpl. case_bool_decide as Hk; simpl; [|done].
  subst k. by specialize (Hall (String a w) ltac:(left)).
Qed.

Lemma replace_idempotent (a b : ascii) (s : string) :
  a <> b -> replace a b (replace a b s) = replace a b s.
Proof.
  intros Hab. induction s as [|x s IH]; simpl; [done|]. rewrite IH. f_equal.
  unfold ascii_eqb. repeat case_bool_decide; congruence.
Qed.

End ParserFacts.

Section Parsers.
Import PyStr Query QueryFacts ParserFacts.

(** X14. The hand-written query parser of src/app.py and of the os.path
    variant gives a key the value of its last field (a segment with an
    equals sign, cut at the first one), also when that value is empty; a key
    with no field is absent; and a semicolon separates fields exactly as an
    ampersand does. *)
Theorem manual_parser_keeps_last_value :
  forall (query_string key : string),
    (forall (pre post : list (string * string)) (v : string),
        fields query_string = pre ++ (key, v) :: post ->
        (forall w, (key, w) ∉ post) ->
        App.parse_params query_string !! key = Some v)
    /\ ((forall w, (key, w) ∉ fields query_string) ->
        App.parse_params query_string !! key = None)
    /\ App.parse_params (replace ";" "&" query_string) = App.parse_params query_string
    /\ OsPathMain.parse_params query_string = App.parse_params query_string.
Proof.
  intros query_string key. repeat split.
  - intros pre post v Hf Hpost. rewrite app_lookup, Hf, foldl_app. simpl.
    rewrite keep_last_absent by done. unfold keep_last. simpl. by case_decide.
  - intros Hno. rewrite app_lookup. by apply keep_last_absent.
  - unfold App.parse_params. by rewrite replace_idempotent.
Qed.

(** X15. On a query string without percent escapes and plus signs the
    [parse_qs]-based parser of the pathlib variant gives a key the value of
    its first field whose value is not empty; a key whose fields are all
    empty, or that has none, is absent. *)
Theorem parse_qs_parser_keeps_first_nonblank_value :
  forall (query_string key : string),
    plain query_string ->
    (forall (pre post : list (string * string)) (v : string),
        fields query_string = pre ++ (key, v) :: post ->
        v <> EmptyString ->
        (forall w, (key, w) ∈ pre -> w = EmptyString) ->
        PathlibMain.parse_params query_string !! key = Some v)
    /\ ((forall w, (key, w) ∈ fields query_string -> w = EmptyString) ->
        PathlibMain.parse_params query_string !! key = None).
Proof.
  intros query_string key Hplain. split.
  - intros pre post v Hf Hv Hpre. rewrite pathlib_lookup, Hf by done.
    by apply values_of_blank_prefix.
  - intros Hall. rewrite pathlib_lookup by done.
    by rewrite values_of_all_blank.
Qed.

Lemma parse_qs_parser_keeps_first_nonblank_value_witness :
  plain "O=;O=D&O=A"
  /\ PathlibMain.parse_params "O=;O=D&O=A" !! "O" = Some "D".
Proof.
  assert (Hplain : plain "O=;O=D&O=A") by (split; reflexivity).
  split; [exact Hplain|].
  apply (proj1 (parse_qs_parser_keeps_first_nonblank_value "O=;O=D&O=A" "O" Hplain)
           [("O", EmptyString)] [("O", "A")] "D").
  - reflexivity.
  - discriminate.
  - intros w Hw. apply elem_of_cons in Hw as [Hw|Hw]; [congruence|].
    by apply not_elem_of_nil in Hw.
Defined.

End Parsers.

(* ===================================================================== *)
(** * The page furniture: parent link, server line, icons and labels *)
(* ===================================================================== *)

Module StrFacts.
Import PyStr.

Lemma app_cons (a : ascii) (s t : string) : String a s +:+ t = String a (s +:+ t).
Proof. reflexivity. Qed.

Lemma app_nil_l' (t : string) : EmptyString +:+ t = t.
Proof. reflexivity. Qed.

Lemma app_assoc' (s t u : string) : (s +:+ t) +:+ u = s +:+ (t +:+ u).
Proof. induction s as [|a s IH]; [done|]. by rewrite !app_cons, IH. Qed.

Lemma rev_app_spec (s t : string) : String.rev_app s t = String.rev s +:+ t.
Proof.
  unfold String.rev. revert t. induction s as [|a s IH]; intros t; [done|].
  cbn [String.rev_app].
  rewrite (IH (String a t)), (IH (String a EmptyString)).
  by rewrite app_assoc', app_cons, app_nil_l'.
Qed.

Lemma rev_cons (a : ascii) (s : string) :
  String.rev (String a s) = String.rev s +:+ String a EmptyString.
Proof. unfold String.rev at 1. cbn [String.rev_app]. apply rev_app_spec. Qed.

Lemma rev_snoc (a : ascii) (s : string) :
  String.rev (s +:+ String a EmptyString) = String a (String.rev s).
Proof.
  induction s as [|b s IH]; [done|].
  by rewrite app_cons, !rev_cons, IH, app_cons.
Qed.

Lemma nonempty_rev (s : string) : nonempty (String.rev s) = nonempty s.
Proof.
  destruct s as [|a s]; [done|]. rewrite rev_cons. by destruct (String.rev s).
Qed.

Lemma lstrip_app (c : ascii) (u t : string) :
  lstrip c (u +:+ t) = if nonempty (lstrip c u) then lstrip c u +:+ t else lstrip c t.
Proof.
  induction u as [|a u IH]; [done|].
  rewrite app_cons. cbn [lstrip]. destruct (ascii_eqb a c); [done|].
  by rewrite app_cons.
Qed.

(** [rstrip], one character at a time. *)
Lemma rstrip_cons (c a : ascii) (s : string) :
  rstrip c (String a s)
  = if nonempty (rstrip c s) || negb (ascii_eqb a c) then String a (rstrip c s)
    else EmptyString.
Proof.
  unfold rstrip. rewrite rev_cons, lstrip_app, nonempty_rev.
  destruct (lstrip c (String.rev s)) as [|b l] eqn:El; simpl.
  - by destruct (ascii_eqb a c).
  - change (String b (l +:+ String a EmptyString))
      with (String b l +:+ String a EmptyString).
    by rewrite rev_snoc.
Qed.

Lemma rstrip_empty_iff (c : ascii) (s : string) :
  rstrip c s = EmptyString <-> lstrip c s = EmptyString.
Proof.
  induction s as [|a s IH]; [done|].
  rewrite rstrip_cons. simpl. destruct (ascii_eqb a c); simpl.
  - rewrite orb_false_r. destruct (rstrip c s) eqn:E; simpl.
    + split; [intros _; by apply IH|done].
    + split; [done|]. intros Hl. apply IH in Hl. done.
  - rewrite orb_true_r. done.
Qed.

Lemma rsplit_no_sep (p : string) :
  contains PosixPath.sep p = false -> (PosixPath.rsplit_sep p).1 = EmptyString.
Proof.
  induction p as [|a p IH]; [done|]. simpl.
  intros [Ha Hp]%orb_false_elim. destruct (PosixPath.rsplit_sep p) as [h t].
  by rewrite Hp, Ha.
Qed.

Lemma rsplit_with_sep (p : string) :
  contains PosixPath.sep p = true -> nonempty (PosixPath.rsplit_sep p).1 = true.
Proof.
  destruct p as [|a p]; [done|]. simpl. destruct (PosixPath.rsplit_sep p) as [h t].
  destruct (contains PosixPath.sep p); [done|]. rewrite orb_false_r. by intros ->.
Qed.

(** [dirname] of a path with one more leading slash. *)
Lemma dirname_slash (t : string) :
  PosixPath.dirname ("/" +:+ t)
  = if nonempty (PosixPath.dirname t) then "/" +:+ PosixPath.dirname t else "/".
Proof.
  unfold PosixPath.dirname.
  change ("/" +:+ t) with (String "/" t). simpl PosixPath.rsplit_sep.
  destruct (contains PosixPath.sep t) eqn:Hc.
  - pose proof (rsplit_with_sep t Hc) as Hne.
    destruct (PosixPath.rsplit_sep t) as [h tl]. simpl in *. rewrite Hne. simpl.
    change (ascii_eqb "/" PosixPath.sep) with true. cbv iota.
    destruct (bool_decide (lstrip PosixPath.sep h = EmptyString)) eqn:Hall; simpl.
    + by rewrite Hne.
    + apply bool_decide_eq_false in Hall.
      assert (Hr : nonempty (rstrip PosixPath.sep h) = true).
      { destruct (rstrip PosixPath.sep h) eqn:E; [|done].
        by apply rstrip_empty_iff in E. }
      by rewrite rstrip_cons, Hr.
  - rewrite (rsplit_no_sep t Hc). destruct (PosixPath.rsplit_sep t) as [h tl].
    reflexivity.
Qed.

Lemma split_no_sep (c : ascii) (s : string) :
  contains c s = false -> split c s = [s].
Proof.
  induction s as [|a s IH]; [done|]. simpl.
  intros [Ha Hs]%orb_false_elim. by rewrite Ha, IH.
Qed.

Lemma split_at_sep (c : ascii) (h p : string) :
  contains c h = false -> split c (h +:+ String c p) = h :: split c p.
Proof.
  induction h as [|a h IH]; simpl.
  - intros _. unfold ascii_eqb. by rewrite bool_decide_eq_true_2.
  - intros [Ha Hh]%orb_false_elim. by rewrite Ha, IH.
Qed.

Lemma contains_app (c : ascii) (s t : string) :
  contains c (s +:+ t) = contains c s || contains c t.
Proof. induction s as [|a s IH]; simpl; [done|]. by rewrite IH, orb_assoc. Qed.

End StrFacts.

Section Furniture.
Import PyStr StrFacts.

(** X16. The parent link is the same in the three variants, for every
    subpath: the pathlib variant's computation (dirname of the slash-prefixed
    path, with ["//"] mended to ["/"]) gives what src/app.py and the os.path
    variant compute; the listing of the root has no parent link, and every
    parent link begins with a slash. *)
Theorem parent_link_agrees :
  forall subpath : string,
    PathlibMain.parent_dir subpath = App.parent_dir subpath
    /\ OsPathMain.parent_dir subpath = App.parent_dir subpath
    /\ (App.parent_dir subpath = None <-> subpath = EmptyString)
    /\ (forall d, App.parent_dir subpath = Some d -> startswith "/" d = true)
    /\ PathlibMain.display_path subpath = App.display_path subpath.
Proof.
  intros subpath. repeat split.
  - unfold PathlibMain.parent_dir, App.parent_dir.
    destruct (nonempty subpath); [|done].
    rewrite dirname_slash.
    destruct (PosixPath.dirname (rstrip "/" subpath)) as [|a d]; [done|].
    simpl. rewrite bool_decide_eq_false_2; [done|]. intros [= _ Hd]. by destruct d.
  - unfold App.parent_dir. destruct subpath; [done|]. simpl.
    by destruct (nonempty (PosixPath.dirname _)).
  - by intros ->.
  - intros d. unfold App.parent_dir. destruct (nonempty subpath); [|done].
    destruct (nonempty (PosixPath.dirname _)); by intros [= <-].
Qed.

(** X17. The server line of the listing page and of the error pages splits
    [request.host] at its colons: a value [host:port] with no further colon
    shows that host and that port, and a value without a colon shows the
    whole of it as the host and the configured port (5001 in src/app.py and
    in the os.path variant).  The value is [request.host], not the Host
    header: the default port of the scheme never arrives in it, so a request
    to that port shows the configured port. *)
Theorem server_line_shows_host_and_port :
  forall (banner configured host port : string),
    contains ":" host = false ->
    contains ":" port = false ->
    PathlibMain.server_info banner configured (host +:+ ":" +:+ port)
    = banner +:+ " at " +:+ host +:+ " Port " +:+ port
    /\ PathlibMain.server_info banner configured host
       = banner +:+ " at " +:+ host +:+ " Port " +:+ configured
    /\ OsPathMain.server_info banner (host +:+ ":" +:+ port)
       = banner +:+ " at " +:+ host +:+ " Port " +:+ port
    /\ OsPathMain.server_info banner host
       = banner +:+ " at " +:+ host +:+ " Port 5001"
    /\ App.server_info (host +:+ ":" +:+ port)
       = "Apache/2.4.62 (Ubuntu) Server at " +:+ host +:+ " Port " +:+ port
    /\ App.server_info host
       = "Apache/2.4.62 (Ubuntu) Server at " +:+ host +:+ " Port 5001".
Proof.
  intros banner configured host port Hh Hp.
  assert (Hs : split ":" (host +:+ ":" +:+ port) = [host; port]).
  { change (host +:+ ":" +:+ port) with (host +:+ String ":" port).
    by rewrite split_at_sep, split_no_sep. }
  assert (Hc : contains ":" (host +:+ ":" +:+ port) = true).
  { change (host +:+ ":" +:+ port) with (host +:+ String ":" port).
    rewrite contains_app. cbn [contains]. unfold ascii_eqb at 1.
    rewrite bool_decide_eq_true_2 by done. apply orb_true_r. }
  assert (E1 : host_part (host +:+ ":" +:+ port) = host)
    by (unfold host_part; by rewrite Hs).
  assert (E2 : forall d, port_part d (host +:+ ":" +:+ port) = port)
    by (intros d; unfold port_part; by rewrite Hc, Hs).
  assert (E3 : host_part host = host)
    by (unfold host_part; by rewrite split_no_sep).
  assert (E4 : forall d, port_part d host = d)
    by (intros d; unfold port_part; by rewrite Hh).
  unfold PathlibMain.server_info, OsPathMain.server_info, App.server_info.
  by rewrite E1, !E2, E3, !E4.
Qed.

Lemma server_line_shows_host_and_port_witness :
  PathlibMain.server_info "Flask Server" "8080" "localhost:5000"
  = "Flask Server at localhost Port 5000"
  /\ PathlibMain.server_info "Flask Server" "8080" "localhost"
     = "Flask Server at localhost Port 8080".
Proof.
  destruct (server_line_shows_host_and_port "Flask Server" "8080" "localhost" "5000"
              eq_refl eq_refl) as (H1 & H2 & _).
  split; [exact H1 | exact H2].
Defined.

(** X18. Whatever type [mimetypes] guesses: the type label is always three
    characters wide; a directory is labelled DIR and shown with the folder
    icon; a file whose name ends in .7z, in any letter case, gets the blank
    label before the guess is looked at; a file's icon is the table's icon
    for the guessed type, and the default icon when there is no guess or the
    table lacks the type; and the icon functions of the variants agree. *)
Theorem labels_and_icons :
  forall (guess_type : string -> option string) (p : Pathlib.path)
         (file_path : string) (is_dir : bool),
    String.length (App.get_file_type_label guess_type file_path is_dir) = 3%nat
    /\ String.length (PathlibMain.file_label guess_type p is_dir) = 3%nat
    /\ App.get_file_type_label guess_type file_path true = "DIR"
    /\ App.get_file_icon guess_type file_path true = "folder.gif"
    /\ (endswith ".7z" (lower file_path) = true ->
        App.get_file_type_label guess_type file_path false = "   ")
    /\ (lower (Pathlib.suffix p) = ".7z" ->
        PathlibMain.file_label guess_type p false = "   ")
    /\ (guess_type file_path = None ->
        App.get_file_icon guess_type file_path false = "unknown.gif")
    /\ (forall mime_type,
          guess_type file_path = Some mime_type ->
          App.get_file_icon guess_type file_path false
          = default "unknown.gif" (ICON_MAP !! mime_type))
    /\ PathlibMain.file_icon guess_type p is_dir
       = App.get_file_icon guess_type (Pathlib.name_of p) is_dir
    /\ OsPathMain.get_file_icon guess_type file_path is_dir
       = App.get_file_icon guess_type file_path is_dir.
Proof.
  intros guess_type p file_path is_dir. repeat split.
  - unfold App.get_file_type_label.
    repeat match goal with
           | |- context [if ?b then _ else _] => destruct b
           | |- context [match ?o with Some _ => _ | None => _ end] => destruct o
           | |- context [match ?s with EmptyString => _ | String _ _ => _ end] =>
               destruct s
           end; reflexivity.
  - unfold PathlibMain.file_label.
    repeat match goal with
           | |- context [if ?b then _ else _] => destruct b
           | |- context [match ?o with Some _ => _ | None => _ end] => destruct o
           | |- context [match ?s with EmptyString => _ | String _ _ => _ end] =>
               destruct s
           end; reflexivity.
  - intros H7. unfold App.get_file_type_label. by rewrite H7.
  - intros H7. unfold PathlibMain.file_label. by rewrite H7.
  - intros Hg. unfold App.get_file_icon. by rewrite Hg.
  - intros mime_type Hg. unfold App.get_file_icon. by rewrite Hg.
  - unfold PathlibMain.file_icon, App.get_file_icon. destruct is_dir; [done|].
    destruct (guess_type (Pathlib.name_of p)) as [[|a m]|]; reflexivity.
Qed.

End Furniture.

(* ===================================================================== *)
(** * The type label: suffix against ending *)
(* ===================================================================== *)

Module SuffixFacts.
Import PyStr StrFacts.

Lemma rev_app_distr' (s t : string) :
  String.rev (s +:+ t) = String.rev t +:+ String.rev s.
Proof.
  induction s as [|a s IH].
  - rewrite app_nil_l'. induction (String.rev t) as [|b r IHr]; [done|].
    by rewrite app_cons, <- IHr.
  - by rewrite app_cons, !rev_cons, IH, app_assoc'.
Qed.

Lemma rev_involutive' (s : string) : String.rev (String.rev s) = s.
Proof.
  induction s as [|a s IH]; [done|]. by rewrite rev_cons, rev_snoc, IH.
Qed.

Lemma startswith_spec (p s : string) :
  startswith p s = true <-> exists t, s = p +:+ t.
Proof.
  revert s. induction p as [|a p IH]; intros s.
  - split; [intros _; by exists s|done].
  - destruct s as [|b s]; simpl.
    + split; [done|]. by intros [t Ht].
    + unfold ascii_eqb. rewrite andb_true_iff, bool_decide_eq_true, IH. split.
      * intros [-> [t ->]]. by exists t.
      * intros [t Ht]. rewrite app_cons in Ht. injection Ht as -> ->. eauto.
Qed.

Lemma endswith_spec (p s : string) :
  endswith p s = true <-> exists u, s = u +:+ p.
Proof.
  unfold endswith. rewrite startswith_spec. split.
  - intros [t Ht]. exists (String.rev t).
    by rewrite <- (rev_involutive' s), Ht, rev_app_distr', rev_involutive'.
  - intros [u ->]. exists (String.rev u). apply rev_app_distr'.
Qed.

Lemma lower_app (s t : string) : lower (s +:+ t) = lower s +:+ lower t.
Proof. induction s as [|a s IH]; [done|]. rewrite app_cons. simpl. by rewrite IH. Qed.

Lemma lower_app_inv (x w v : string) :
  lower x = w +:+ v -> exists u s, x = u +:+ s /\ lower u = w /\ lower s = v.
Proof.
  revert x. induction w as [|a w IH]; intros x Hx.
  - by exists EmptyString, x.
  - destruct x as [|b x]; [done|]. rewrite app_cons in Hx. simpl in Hx.
    injection Hx as Hb Hx. destruct (IH x Hx) as (u & s & -> & Hu & Hs).
    exists (String b u), s. simpl. by rewrite Hb, Hu.
Qed.

Lemma lower_ascii_dot (c : ascii) : lower_ascii c = "."%char -> c = "."%char.
Proof. destruct c as [[] [] [] [] [] [] [] []]; vm_compute; congruence. Qed.

Lemma lower_ascii_not_dot (c : ascii) :
  lower_ascii c <> "."%char -> c <> "."%char.
Proof. intros Hc ->. by apply Hc. Qed.

Lemma rfind_dot_none (s : string) :
  contains "." s = false -> Pathlib.rfind_dot s = None.
Proof.
  induction s as [|a s IH]; [done|]. simpl.
  intros [Ha Hs]%orb_false_elim. by rewrite (IH Hs), Ha.
Qed.

Lemma rfind_dot_last (u t : string) :
  contains "." t = false ->
  Pathlib.rfind_dot (u +:+ String "." t) = Some (String.length u, String "." t).
Proof.
  intros Ht. induction u as [|a u IH].
  - rewrite app_nil_l'. simpl. by rewrite (rfind_dot_none t Ht).
  - rewrite app_cons. simpl. by rewrite IH.
Qed.

Lemma rfind_dot_spec (x : string) (i : nat) (s : string) :
  Pathlib.rfind_dot x = Some (i, s) -> exists u, x = u +:+ s.
Proof.
  revert i. induction x as [|a x IH]; intros i; [done|]. simpl.
  destruct (Pathlib.rfind_dot x) as [[j s']|].
  - intros [= <- <-]. destruct (IH j eq_refl) as [u ->]. by exists (String a u).
  - destruct (ascii_eqb a "."); [|done]. intros [= <- <-]. by exists EmptyString.
Qed.

Lemma length_app' (s t : string) :
  String.length (s +:+ t) = (String.length s + String.length t)%nat.
Proof. induction s as [|a s IH]; [done|]. rewrite app_cons. simpl. by rewrite IH. Qed.

(** On a name that does not start with a dot, the suffix test of the pathlib
    variant and the ending test of the other two say the same. *)
Lemma suffix_7z_iff (x : string) :
  startswith "." x = false ->
  bool_decide (lower (Pathlib.suffix_of_name x) = ".7z") = endswith ".7z" (lower x).
Proof.
  intros Hdot. apply eq_true_iff_eq. rewrite bool_decide_eq_true, endswith_spec. split.
  - unfold Pathlib.suffix_of_name.
    destruct (Pathlib.rfind_dot x) as [[i s]|] eqn:Hr; [|done].
    destruct (_ && _); [|done]. intros Hs.
    destruct (rfind_dot_spec x i s Hr) as [u ->].
    exists (lower u). by rewrite lower_app, Hs.
  - intros [w Hw]. destruct (lower_app_inv x w ".7z" Hw) as (u & s & -> & _ & Hs).
    destruct s as [|c0 [|c1 [|c2 [|c3 s]]]]; try done.
    simpl in Hs. injection Hs as H0 H1 H2.
    apply lower_ascii_dot in H0 as ->.
    assert (Hc1 : c1 <> "."%char) by (apply lower_ascii_not_dot; by rewrite H1).
    assert (Hc2 : c2 <> "."%char) by (apply lower_ascii_not_dot; by rewrite H2).
    assert (Ht : contains "." (String c1 (String c2 EmptyString)) = false).
    { simpl. unfold ascii_eqb. by rewrite !bool_decide_eq_false_2. }
    unfold Pathlib.suffix_of_name. rewrite (rfind_dot_last u _ Ht).
    rewrite length_app'. destruct u as [|a u]; [done|]. simpl String.length.
    replace ((0 <? S (String.length u)) && _)%nat with true.
    + simpl. by rewrite H1, H2.
    + symmetry. apply andb_true_iff. split; [done|]. apply Nat.ltb_lt. lia.
Qed.

End SuffixFacts.

Section LabelAgreement.
Import PyStr.

(** X19. For every entry that can be listed, that is whose name does not
    start with a dot, the pathlib variant's type label (decided by the
    suffix of the name) is the label of src/app.py and of the os.path variant
    (decided by the ending of the name), whatever type is guessed. *)
Theorem labels_agree_on_listed_names :
  forall (guess_type : string -> option string) (p : Pathlib.path) (is_dir : bool),
    startswith "." (Pathlib.name_of p) = false ->
    PathlibMain.file_label guess_type p is_dir
    = App.get_file_type_label guess_type (Pathlib.name_of p) is_dir
    /\ OsPathMain.get_file_type_label guess_type (Pathlib.name_of p) is_dir
       = App.get_file_type_label guess_type (Pathlib.name_of p) is_dir.
Proof.
  intros guess_type p is_dir Hdot. split; [|done].
  unfold PathlibMain.file_label, App.get_file_type_label, Pathlib.suffix.
  by rewrite (SuffixFacts.suffix_7z_iff _ Hdot).
Qed.

Lemma labels_agree_on_listed_names_witness :
  startswith "." (Pathlib.name_of (Pathlib.parse "/srv/share/Backup.7Z")) = false
  /\ PathlibMain.file_label (fun _ => Some "application/x-7z-compressed")
       (Pathlib.parse "/srv/share/Backup.7Z") false
     = App.get_file_type_label (fun _ => Some "application/x-7z-compressed")
         (Pathlib.name_of (Pathlib.parse "/srv/share/Backup.7Z")) false.
Proof.
  split; [reflexivity|].
  exact (proj1 (labels_agree_on_listed_names
                  (fun _ => Some "application/x-7z-compressed")
                  (Pathlib.parse "/srv/share/Backup.7Z") false eq_refl)).
Defined.

End LabelAgreement.

(* ===================================================================== *)
(** * What the component-wise check guarantees *)
(* ===================================================================== *)

Module ConfinementFacts.
Import Pathlib Transfer.

Lemma is_relative_to_below (q root : path) :
  is_relative_to q root = true <-> below root q.
Proof.
  unfold is_relative_to, below.
  rewrite andb_true_iff, !bool_decide_eq_true. split.
  - intros [Ha Ht]. split; [done|].
    exists (drop (length (parts root)) (parts q)).
    by rewrite <- Ht at 1; rewrite take_drop.
  - intros [Ha [k Hk]]. split; [done|]. by rewrite Hk, take_app_length.
Qed.

Lemma below_trans (root p q : path) : below root p -> below p q -> below root q.
Proof.
  intros [Ha Hp] [Hb Hq]. split; [congruence|]. by etrans.
Qed.

Lemma below_parent (root q : path) :
  below root q -> q <> root -> below root (parent q).
Proof.
  intros [Ha [k Hk]] Hne. split; [done|]. unfold parent. simpl.
  destruct (decide (k = [])) as [->|Hk'].
  - exfalso. apply Hne. destruct q, root. simpl in *. rewrite app_nil_r in Hk.
    congruence.
  - exists (removelast k). rewrite Hk. by apply removelast_app.
Qed.

End ConfinementFacts.

Section Confinement.
Import Pathlib Transfer ConfinementFacts.

(** X20. What the pathlib variant's check guarantees, whatever the request:
    a file it sends, the directory it archives together with every member of
    the archive, and a file it saves all lie at or below the root, component
    by component; and a directory it creates is at or below the root as soon
    as the destination is not the root itself. *)
Theorem pathlib_touches_only_below_root :
  forall (root : path) (style : bool) (resolve : path -> path) (fs : FS.filesystem)
         (tmp : string) (req : request) (subpath : string),
    (forall q : path, resolve (resolve q) = resolve q) ->
    let served := PathlibMain.list_endpoint root style resolve fs tmp req subpath in
    let uploaded := PathlibMain.upload_endpoint root resolve fs req subpath in
    (forall f, answer served = SendFile f -> exists q, f = str q /\ below root q)
    /\ (forall t dl members source arc,
          answer served = Attachment t dl members ->
          (source, arc) ∈ members ->
          exists q, source = str q /\ below root q)
    /\ (forall f, SaveFile f ∈ uploaded.2 -> exists q, f = str q /\ below root q)
    /\ (forall d, MakeDirs d ∈ uploaded.2 ->
          exists q, d = str (parent q) /\ below root q
                    /\ (q <> root -> below root (parent q))).
Proof.
  intros root style resolve fs tmp req subpath Hidem served uploaded.
  subst served uploaded. repeat split.
  - intros f. cbv beta zeta delta [PathlibMain.list_endpoint]. unfold PathlibMain.inside_root.
    rewrite Hidem.
    destruct (is_relative_to _ root) eqn:Hin; cbn [negb]; [|done].
    destruct (negb (FS.exists_ _ _)); [done|].
    destruct (FS.isfile _ _).
    + intros [= <-]. eexists. split; [done|]. by apply is_relative_to_below.
    + destruct (args req !! "download") as [[|c d]|];
        [unfold PathlibMain.listing_view;
         by destruct (PathlibMain.directory_listing_data _ _ _ _ _)
        | |unfold PathlibMain.listing_view;
           by destruct (PathlibMain.directory_listing_data _ _ _ _ _)].
      unfold PathlibMain.download_directory_as_zip.
      match goal with |- context [if ?b then _ else _] => destruct b end; [done|].
      by destruct (PathlibMain.zip_members _ _).
  - intros t dl members source arc.
    cbv beta zeta delta [PathlibMain.list_endpoint]. unfold PathlibMain.inside_root.
    rewrite Hidem.
    destruct (is_relative_to _ root) eqn:Hin; cbn [negb]; [|done].
    destruct (negb (FS.exists_ _ _)); [done|].
    destruct (FS.isfile _ _); [done|].
    destruct (args req !! "download") as [[|c d]|];
      [unfold PathlibMain.listing_view;
       by destruct (PathlibMain.directory_listing_data _ _ _ _ _)
      | |unfold PathlibMain.listing_view;
         by destruct (PathlibMain.directory_listing_data _ _ _ _ _)].
    unfold PathlibMain.download_directory_as_zip, PathlibMain.inside_root.
    rewrite Hidem.
    destruct (is_relative_to (resolve (truediv _ (String c d))) root) eqn:Hin';
      cbn [negb orb]; [|done].
    destruct (negb (FS.isdir _ _)); [done|].
    destruct (PathlibMain.zip_members _ _) as [ms|] eqn:Hz; [|done].
    intros [= _ _ <-] Hmem.
    unfold PathlibMain.zip_members in Hz. apply mapM_Some_1 in Hz.
    apply list_elem_of_lookup in Hmem as [i Hi].
    destruct (Forall2_lookup_r _ _ _ _ _ Hz Hi) as (file_path & _ & Hf).
    destruct (relative_to file_path _) as [a|] eqn:Hrel; [|done]. simpl in Hf.
    destruct (FS.can_read fs _); [|done]. injection Hf as <- _.
    exists file_path. split; [done|].
    unfold relative_to in Hrel.
    destruct (is_relative_to file_path _) eqn:Hft; [|done].
    eapply below_trans; by apply is_relative_to_below.
  - intros f. cbv beta zeta delta [PathlibMain.upload_endpoint].
    unfold PathlibMain.inside_root. rewrite !Hidem.
    repeat match goal with
           | |- context [if negb ?b then _ else _] => destruct b eqn:?; cbn [negb]
           | |- context [if ?b then _ else _] => destruct b eqn:?
           | |- context [match files req !! "file" with _ => _ end] =>
               destruct (files req !! "file") as [filename|]
           end; cbn [fst snd];
      intros Hop;
      repeat (apply elem_of_cons in Hop as [Hop|Hop]; [try discriminate|]);
      try (by apply elem_of_nil in Hop).
    injection Hop as ->. eexists. split; [done|].
    apply is_relative_to_below. by rewrite <- Hidem.
  - intros d. cbv beta zeta delta [PathlibMain.upload_endpoint].
    unfold PathlibMain.inside_root. rewrite !Hidem.
    repeat match goal with
           | |- context [if negb ?b then _ else _] => destruct b eqn:?; cbn [negb]
           | |- context [if ?b then _ else _] => destruct b eqn:?
           | |- context [match files req !! "file" with _ => _ end] =>
               destruct (files req !! "file") as [filename|]
           end; cbn [fst snd]; intros Hop.
    all: repeat (apply elem_of_cons in Hop as [Hop|Hop]; [try discriminate|]).
    all: try (by apply elem_of_nil in Hop).
    all: injection Hop as ->; eexists; split; [done|].
    all: assert (Hb : below root
                        (resolve
                           (truediv (resolve (truediv root (UrlParse.unquote subpath)))
                              (PyStr.lstrip "/"
                                 (PyStr.replace PyStr.backslash "/"
                                    (default filename (form req !! "path")))))))
           by (apply is_relative_to_below; by rewrite <- Hidem).
    all: split; [done|]; intros Hne; by apply below_parent.
Qed.

Lemma pathlib_touches_only_below_root_witness :
  exists q, "/srv/share/nested/dir/file.bin" = str q /\ below Samples.root q.
Proof.
  refine (proj1 (proj2 (proj2
    (pathlib_touches_only_below_root Samples.root false (resolve_lexical [])
       Samples.disk "/tmp/tmpk3v9.zip"
       (Samples.upload_request "file.bin" "nested/dir/file.bin") "" _))) _ _).
  - intros q. apply PathFacts.resolve_lexical_idempotent, not_elem_of_nil.
  - vm_compute. right. left.
Defined.

End Confinement.

(* ===================================================================== *)
(** * The library models on known values *)
(* ===================================================================== *)

Module KnownValues.
Import PosixPath.

Example normpath_dotdot : normpath "/srv/share/a/../b/./c//d" = "/srv/share/b/c/d".
Proof. reflexivity. Qed.
Example normpath_escape : normpath "/srv/share/../../etc/passwd" = "/etc/passwd".
Proof. reflexivity. Qed.
Example normpath_rel : normpath "a/../../b" = "../b".
Proof. reflexivity. Qed.
Example normpath_root : normpath "/.." = "/".
Proof. reflexivity. Qed.
Example normpath_two : normpath "//a/" = "//a".
Proof. reflexivity. Qed.
Example normpath_empty : normpath "" = ".".
Proof. reflexivity. Qed.
Example join_abs : join "/srv/share" "/etc/passwd" = "/etc/passwd".
Proof. reflexivity. Qed.
Example join_rel : join "/srv/share" "a/b" = "/srv/share/a/b".
Proof. reflexivity. Qed.
Example join_empty : join "/srv/share" "" = "/srv/share/".
Proof. reflexivity. Qed.
Example dirname_ex : dirname "nested/dir/file.bin" = "nested/dir".
Proof. reflexivity. Qed.
Example dirname_up : dirname "../outside.bin" = "..".
Proof. reflexivity. Qed.
Example dirname_root : dirname "/x" = "/".
Proof. reflexivity. Qed.
Example basename_ex : basename "nested/dir/file.bin" = "file.bin".
Proof. reflexivity. Qed.
Example basename_none : basename "file.bin" = "file.bin".
Proof. reflexivity. Qed.
Example relpath_ex :
  FS.relpath "/srv/share/project/sub/b.txt" "/srv/share/project" = "sub/b.txt".
Proof. reflexivity. Qed.
Example unquote_ex : UrlParse.unquote "%2e%2e/a%20b%zz" = "../a b%zz".
Proof. reflexivity. Qed.
Example mixed_name_order :
  name <$> PySort.sort name
             [ Entry "B.txt" 0 "  0 " 0 "" false; Entry "a.txt" 0 "  0 " 0 "" false;
               Entry "Z.txt" 0 "  0 " 0 "" false ]
  = ["B.txt"; "Z.txt"; "a.txt"].
Proof. reflexivity. Qed.
Example half_even_format :
  App.format_file_size 2560 = "2.5K" /\ App.format_file_size 10752 = " 10K"
  /\ App.format_file_size 11776 = " 12K" /\ App.format_file_size 10239 = "10.0K".
Proof. repeat split; vm_compute; reflexivity. Qed.
Example broken_link_empties_listing :
  App.get_directory_listing Samples.disk_broken_link "/srv/share" "name" "A" = []
  /\ OsPathMain.get_directory_listing Samples.disk_broken_link "/srv/share" "name" "A"
       false = []
  /\ PathlibMain.directory_listing_data Samples.disk_broken_link Samples.root "name" "A"
       false = Some []
  /\ FS.os_walk Samples.disk_broken_link "/srv/share"
     = [("/srv/share", [], ["a.txt"; "dangling"])]
  /\ FS.can_read Samples.disk_broken_link "/srv/share/dangling" = false.
Proof. repeat split; vm_compute; reflexivity. Qed.
Example upload_nested :
  OsPathMain.upload_file "/srv/share" Samples.disk
    (Samples.upload_request "file.bin" "nested/dir/file.bin") ""
  = (Json 200 true "File nested/dir/file.bin uploaded successfully",
     [MakeDirs "/srv/share/nested/dir"; SaveFile "/srv/share/nested/dir/file.bin"]).
Proof. vm_compute; reflexivity. Qed.

End KnownValues.
